(** * SLVNK backend: access gate, upload admission and profile queries

    A shallow embedding of the request-admission code of the backend:

    - [middleware/authMiddleware.js] and [middleware/staticAdminMiddleware.js]
      (the two gates),
    - [middleware/upload.js] and the multer set-up of [routes/authRoutes.js]
      (the two upload pipelines), together with the handlers that consume the
      stored file ([POST /register], [POST /me/upload-picture]),
    - the read handlers of [routes/profileRoutes.js] and
      [routes/adminRoutes.js] (search, listings, look-ups by id),
    - the write routes: [POST /login] with [comparePassword] of
      [models/User.js], the admin's [POST /users] and [DELETE /users/:id],
      and [PUT /:id].

    Conventions of the model.

    - A JavaScript string is a [string] of code units below 256.
    - A number is an integer ([Z]), [NaN] or an infinity. [parseInt] gives
      the number nearest to the digits it read (an integer beyond [2 ^ 53]
      is rounded to 53 bits, one beyond the largest number is an infinity);
      the code combines its results with [-], [*], [/] and [Math.ceil],
      which are exact on the safe-integer range.
    - Express hands a request from one middleware to the next; a middleware
      either answers ([Respond]), passes the request on ([Next]) or passes an
      error on ([NextErr]), which the error handler of [server.js] turns into
      a 500 answer.
    - Libraries the repository calls but does not contain (jsonwebtoken,
      the RegExp engine, Mongoose validation, bcrypt, node's [path]) are
      fields of the classes [Runtime] and [Platform]; every theorem holds
      for all of them.
    - multer and Mongoose are modelled by what they document: the file
      filter runs before anything is stored, a part is kept only if it is
      smaller than the size limit, a query sorts, skips and then limits,
      and a schema path with [select: false] is left out of every query
      that does not ask for it. *)

From Stdlib Require Import ZArith List String Ascii Lia Permutation Sorted.
From stdpp Require Import base option strings pretty gmap list.

Local Open Scope string_scope.
Local Open Scope Z_scope.

(** ** JavaScript strings *)

(** The upper-case letters below 256: A-Z and the Latin-1 capitals (all of
    192-222 but the multiplication sign). *)
Definition is_upper (c : ascii) : bool :=
  let n := nat_of_ascii c in
  ((65 <=? n)%nat && (n <=? 90)%nat)
  || ((192 <=? n)%nat && (n <=? 222)%nat && negb (n =? 215)%nat).

(** [toLowerCase] on one code unit. *)
Definition lower_ascii (c : ascii) : ascii :=
  if is_upper c then ascii_of_nat (nat_of_ascii c + 32) else c.

Fixpoint toLowerCase (s : string) : string :=
  match s with
  | EmptyString => EmptyString
  | String c r => String (lower_ascii c) (toLowerCase r)
  end.

(** [s.startsWith(p)] *)
Fixpoint startsWith (p s : string) : bool :=
  match p, s with
  | EmptyString, _ => true
  | String a p', String b s' => if Ascii.eqb a b then startsWith p' s' else false
  | String _ _, EmptyString => false
  end.

(** [s.endsWith(p)] *)
Fixpoint endsWith (p s : string) : bool :=
  match s with
  | EmptyString => String.eqb p EmptyString
  | String _ r => String.eqb p s || endsWith p r
  end.

(** [s.split(sep)] for a one-character separator: the pieces between the
    separators, empty pieces included. *)
Fixpoint split_on (sep : ascii) (s : string) : list string :=
  match s with
  | EmptyString => [EmptyString]
  | String c r =>
      if Ascii.eqb c sep then EmptyString :: split_on sep r
      else match split_on sep r with
           | [] => [String c EmptyString]
           | w :: ws => String c w :: ws
           end
  end.

(** Truthiness of an optional string: [undefined] and [""] are falsy. *)
Definition truthy (o : option string) : bool :=
  match o with
  | Some (String _ _) => true
  | _ => false
  end.

(** [a || b] on optional strings. *)
Definition or_else (o : option string) (d : string) : string :=
  match o with
  | Some (String c r) => String c r
  | _ => d
  end.

Definition is_space (c : ascii) : bool :=
  let n := nat_of_ascii c in
  ((9 <=? n)%nat && (n <=? 13)%nat) || (n =? 32)%nat || (n =? 160)%nat.

Fixpoint trimStart (s : string) : string :=
  match s with
  | String c r => if is_space c then trimStart r else s
  | EmptyString => EmptyString
  end.

(** ** JavaScript numbers, as far as the handlers use them *)

Inductive jsnum :=
| JInt (z : Z)
| JNaN
| JInf (negative : bool).

#[global] Instance jsnum_eq_dec : EqDecision jsnum.
Proof. solve_decision. Defined.

(** Value of a digit in radix up to 36. *)
Definition digit_val (c : ascii) : option Z :=
  let n := Z.of_nat (nat_of_ascii c) in
  if (48 <=? n) && (n <=? 57) then Some (n - 48)
  else if (97 <=? n) && (n <=? 122) then Some (n - 87)
  else if (65 <=? n) && (n <=? 90) then Some (n - 55)
  else None.

(** The longest prefix of radix-[r] digits, read as a number; [None] when the
    prefix is empty. [acc] carries the digits read so far. *)
Fixpoint read_digits (r : Z) (s : string) (acc : option Z) : option Z :=
  match s with
  | EmptyString => acc
  | String c rest =>
      match digit_val c with
      | Some d =>
          if d <? r then read_digits r rest (Some (default 0 acc * r + d))
          else acc
      | None => acc
      end
  end.

(** [Number.MAX_SAFE_INTEGER]: up to it, and up to [2 ^ 53] itself, every
    integer is a number of its own. *)
Definition MAX_SAFE_INTEGER : Z := 2 ^ 53 - 1.

(** The number an integer becomes: itself up to [2 ^ 53] in magnitude;
    beyond, the nearest number with a mantissa of 53 bits, a tie going to
    the even mantissa, and an infinity from [2 ^ 1024 - 2 ^ 970] on. *)
Definition nearest_double (z : Z) : jsnum :=
  let a := Z.abs z in
  if a <=? 2 ^ 53 then JInt z
  else
    let e := Z.log2 a - 52 in
    let q := Z.shiftr a e in
    let r := a - Z.shiftl q e in
    let half := Z.shiftl 1 (e - 1) in
    let q' := if (half <? r) || ((r =? half) && Z.odd q) then q + 1 else q in
    if 2 ^ 1024 <=? Z.shiftl q' e then JInf (z <? 0)
    else JInt (Z.sgn z * Z.shiftl q' e).

(** [parseInt(s, radix)]; [radix = None] is a call with one argument. The
    digits are read exactly and the result is the number nearest to them
    (the handlers read in radix 10 and, after [0x], 16). *)
Definition parseInt (s : string) (radix : option Z) : jsnum :=
  let t := trimStart s in
  let '(sign, t) :=
    match t with
    | String "-" r => (-1, r)
    | String "+" r => (1, r)
    | _ => (1, t)
    end in
  let '(r, t) :=
    match radix with
    | None | Some 16 =>
        match t with
        | String "0" (String "x" r) => (16, r)
        | String "0" (String "X" r) => (16, r)
        | _ => (default 10 radix, t)
        end
    | Some r => (r, t)
    end in
  match read_digits r t None with
  | Some v => nearest_double (sign * v)
  | None => JNaN
  end.

(** [a || d] on numbers: [0] and [NaN] are falsy. *)
Definition num_or (a : jsnum) (d : Z) : jsnum :=
  match a with
  | JInt 0 | JNaN => JInt d
  | _ => a
  end.

(** [(a - 1) * b] on the results of [parseInt]. The product of two
    integers is written exactly: it is the number the program computes as
    long as it is at most [2 ^ 53]; a larger product is rounded by the
    program, and then both numbers are beyond the size of any collection. *)
Definition pred_times (a b : jsnum) : jsnum :=
  match a, b with
  | JInt x, JInt y => JInt ((x - 1) * y)
  | JNaN, _ | _, JNaN => JNaN
  | JInf n, JInt y => if y =? 0 then JNaN else JInf (xorb n (y <? 0))
  | JInt x, JInf n => if x =? 1 then JNaN else JInf (xorb (x <? 1) n)
  | JInf n, JInf m => JInf (xorb n m)
  end.

(** [Math.ceil(count / l)] for a count [0 <= count]. *)
Definition ceil_div (count : Z) (l : jsnum) : jsnum :=
  match l with
  | JInt 0 => if count =? 0 then JNaN else JInf false
  | JInt y => JInt (- ((- count) / y))
  | JNaN => JNaN
  | JInf _ => JInt 0
  end.


(** ** Requests, answers and the document store *)

(** The payload [jwt.sign] was given at login or registration, as
    [jwt.verify] returns it. *)
Record token_payload := {
  userId : string;
  role : string;
  iat : Z;
  exp : Z;
}.

(** The ways [jwt.verify] throws. *)
Inductive jwt_error :=
| TokenExpiredError (expiredAt : Z)
| JsonWebTokenError (message : string)
| NotBeforeError.

(** What multer's disk storage leaves in [req.file]. *)
Record stored_file := {
  fieldname : string;
  originalname : string;
  mimetype : string;
  filename : string;
  path : string;
}.

(** The file part of a multipart body, before admission. *)
Record file_part := {
  part_fieldname : string;
  part_originalname : string;
  part_mimetype : string;
  part_size : Z;
}.

Record request := {
  headers : gmap string string;   (* node lower-cases the header names *)
  query : gmap string string;     (* req.query *)
  body : gmap string string;      (* req.body, text fields *)
  params_id : option string;      (* req.params.id *)
  multipart : option file_part;   (* the multipart file part, if any *)
  user : option token_payload;    (* req.user *)
  file : option stored_file;      (* req.file *)
  fileValidationError : option string;
}.

(** A user document. The free-form profile fields of the schema (name, city,
    state, occupation, ...) are kept in [profile]; [location] and [age] are
    not in the schema any more but are still queried by the search handler,
    so a stored document may or may not carry them. *)
Record user_doc := {
  _id : string;
  email : string;
  mobileNumber : string;
  password : option string;
  gender : string;
  religion : option string;
  doc_role : string;
  profilePicture : string;
  createdAt : Z;
  location : option string;
  age : option Z;
  profile : gmap string string;
}.

(** Errors that travel through [catch] and [next(err)]; [err_name] is
    [err.name]. *)
Record js_error := {
  err_name : string;
  err_message : string;
  err_fields : list (string * string);  (* ValidationError: path, message *)
}.

(** The JSON bodies the handlers send. *)
Inductive payload :=
| Message (message : string)
| Failure (message : string)                    (* success: false, message *)
| FieldErrors (message : string) (errors : list (string * string))
| ErrorOnly (error : string)                    (* the handler of server.js *)
| Registered (token : string) (u : user_doc)
| PictureUploaded (filePath : string) (u : user_doc)
| SearchResults (results : list user_doc) (total : Z) (page limit totalPages : jsnum)
| Profiles (count : Z) (profiles : list user_doc)
| OneProfile (profile : user_doc)
| AdminUsers (users : list user_doc) (totalUsers : Z) (totalPages currentPage limit : jsnum)
               (filter : string)
| OneUser (u : user_doc).

Record response := { status : Z; json : payload }.

(** How a middleware or handler ends. *)
Inductive outcome :=
| Next (req : request)
| Respond (res : response)
| NextErr (err : js_error).

(** The libraries behind the code. *)
Class Runtime := {
  (** [jwt.verify(token, process.env.JWT_SECRET)] *)
  jwt_verify : string -> jwt_error + token_payload;
  (** [jwt.sign(payload, secret, options)] on [userId] and [role] *)
  jwt_sign : string -> string -> string;
  (** [new RegExp(source, "i")]: [None] is a SyntaxError, otherwise the
      test the pattern performs *)
  RegExp_i : string -> option (string -> bool);
  (** [Number(s) <= n] and [n <= Number(s)] for a stored integer [n] *)
  Number_le : string -> Z -> bool;
  Number_ge : string -> Z -> bool;
  (** can the string be cast to an ObjectId *)
  isObjectId : string -> bool;
  (** Mongoose validation of a document against the schema: the failing
      paths with their messages *)
  validate : user_doc -> list (string * string);
  (** [bcrypt.hash] with a fresh salt *)
  bcrypt_hash : string -> string;
  (** Mongoose's [strictQuery]: are filter paths outside the schema dropped *)
  strictQuery : bool;
}.

Definition reply (code : Z) (p : payload) : outcome :=
  Respond {| status := code; json := p |}.

(** The error-handling middleware of [server.js]. *)
Definition error_handler (err : js_error) : response :=
  {| status := 500; json := ErrorOnly (err_message err) |}.

(** The answer a route finally sends, if any. *)
Definition answer (o : outcome) : option response :=
  match o with
  | Respond res => Some res
  | NextErr err => Some (error_handler err)
  | Next _ => None
  end.

(** Middleware chaining: the handler runs when the middleware calls
    [next()]. *)
Definition and_then (o : outcome) (k : request -> outcome) : outcome :=
  match o with
  | Next req => k req
  | _ => o
  end.

(** [req.header(name)] of Express. *)
Definition header (req : request) (name : string) : option string :=
  let lc := toLowerCase name in
  if decide (lc = "referer" \/ lc = "referrer")
  then match headers req !! "referrer" with
       | Some (String c r) => Some (String c r)
       | _ => headers req !! "referer"
       end
  else headers req !! lc.

Definition set_user (decoded : token_payload) (req : request) : request :=
  {| headers := headers req; query := query req; body := body req;
     params_id := params_id req; multipart := multipart req;
     user := Some decoded;
     file := file req; fileValidationError := fileValidationError req |}.

Definition set_header (name : string) (value : option string) (req : request)
  : request :=
  {| headers := match value with
                | Some v => <[name := v]> (headers req)
                | None => delete name (headers req)
                end;
     query := query req; body := body req;
     params_id := params_id req; multipart := multipart req; user := user req;
     file := file req; fileValidationError := fileValidationError req |}.

(** ** The gates *)

Definition TRUE : string := "true".

Section Gates.
Context `{rt : Runtime}.

(** [req.header("Authorization")?.split(" ")[1]] *)
Definition bearer_token (req : request) : option string :=
  match header req "Authorization" with
  | Some h => split_on " " h !! 1%nat
  | None => None
  end.

(** middleware/authMiddleware.js *)
Definition authMiddleware (req : request) : outcome :=
  if decide (header req "X-Admin-Request" = Some TRUE) then Next req
  else
    match bearer_token req with
    | Some (String c r) =>
        match jwt_verify (String c r) with
        | inr decoded => Next (set_user decoded req)
        | inl _ => reply 401 (Message "Token is not valid")
        end
    | _ => reply 401 (Message "No token or admin header, authorization denied")
    end.

(** middleware/staticAdminMiddleware.js *)
Definition staticAdminMiddleware (req : request) : outcome :=
  let isAdminRequest := bool_decide (headers req !! "x-admin-request" = Some TRUE) in
  if negb isAdminRequest then reply 403 (Message "Admin privileges required")
  else Next req.

End Gates.

(** ** Durable state: the upload directories and the user collection *)

Record world := {
  files : gset string;       (* paths present under uploads/ *)
  users : list user_doc;     (* the collection, in insertion order *)
}.

(** Calls into [fs] that change the upload directories. *)
Inductive fs_call :=
| Write (p : string)
| Unlink (p : string).

(** What one run of a route does: the [fs] calls it issued, in order, all of
    them before it ended with [out]; [store] is the state it leaves. *)
Record result := {
  out : outcome;
  store : world;
  calls : list fs_call;
}.

(** What the request cannot know beforehand. *)
Record env := {
  now : Z;                        (* Date.now() *)
  random : Z;                     (* Math.round(Math.random() * 1e9) *)
  new_id : string;                (* the ObjectId of a new document *)
  store_fault : option js_error;  (* thrown by the store on a write:
                                     a lost race on a unique index, a
                                     dropped connection *)
}.

Definition write_file (p : string) (w : world) : world :=
  {| files := {[p]} ∪ files w; users := users w |}.

(** [fs.unlink(p, cb)]; a failure is only logged by the callbacks. *)
Definition unlink (p : string) (w : world) : world :=
  {| files := files w ∖ {[p]}; users := users w |}.

Definition set_users (us : list user_doc) (w : world) : world :=
  {| files := files w; users := us |}.

Definition set_file (f : stored_file) (req : request) : request :=
  {| headers := headers req; query := query req; body := body req;
     params_id := params_id req; multipart := multipart req; user := user req;
     file := Some f; fileValidationError := fileValidationError req |}.

Definition set_fileValidationError (m : string) (req : request) : request :=
  {| headers := headers req; query := query req; body := body req;
     params_id := params_id req; multipart := multipart req; user := user req;
     file := file req; fileValidationError := Some m |}.

(** ** Upload admission (multer) *)

Inductive upload_error :=
| MulterError (code : string) (message : string)
| PlainError (message : string).

(** After [upload(req, res, cb)]: the request as multer and the filter left
    it, and the error handed to [cb]. *)
Record uploaded := {
  up_req : request;
  up_err : option upload_error;
  up_store : world;
  up_calls : list fs_call;
}.

(** [path.extname] and decimal printing come from the platform. *)
Class Platform := {
  path_extname : string -> string;
  show : Z -> string;
}.

Definition fileSize_limit : Z := 1024 * 1024 * 5.

Section Upload.
Context `{pf : Platform}.

(** The [filename] callback of both disk storages. *)
Definition unique_filename (e : env) (f : file_part) : string :=
  let uniqueSuffix := show (now e) +:+ "-" +:+ show (random e) in
  part_fieldname f +:+ "-" +:+ uniqueSuffix +:+ path_extname (part_originalname f).

(** The disk storage: the file lands in [destination] under its generated
    name. *)
Definition stored_at (destination : string) (e : env) (f : file_part)
  : stored_file :=
  {| fieldname := part_fieldname f;
     originalname := part_originalname f;
     mimetype := part_mimetype f;
     filename := unique_filename e f;
     path := destination +:+ "/" +:+ unique_filename e f |}.

(** [multer({storage, fileFilter, limits}).single(field)]: the filter
    decides on the part's headers before anything is stored; the stream is
    cut off when it reaches [fileSize] bytes, so a part is kept only if it
    is smaller than the limit, and a part of [fileSize] bytes or more is
    removed again. *)
Definition multer_single
    (fileFilter : request -> file_part -> request * option string)
    (destination : string) (fileSize : Z) (field : string)
    (e : env) (req : request) (w : world) : uploaded :=
  match multipart req with
  | None => {| up_req := req; up_err := None; up_store := w; up_calls := [] |}
  | Some f =>
      if negb (String.eqb (part_fieldname f) field) then
        {| up_req := req;
           up_err := Some (MulterError "LIMIT_UNEXPECTED_FILE" "Unexpected field");
           up_store := w; up_calls := [] |}
      else
        match fileFilter req f with
        | (req', Some m) =>
            {| up_req := req'; up_err := Some (PlainError m);
               up_store := w; up_calls := [] |}
        | (req', None) =>
            let stored := stored_at destination e f in
            if fileSize <=? part_size f then
              {| up_req := req';
                 up_err := Some (MulterError "LIMIT_FILE_SIZE" "File too large");
                 up_store := unlink (path stored) (write_file (path stored) w);
                 up_calls := [Write (path stored); Unlink (path stored)] |}
            else
              {| up_req := set_file stored req';
                 up_err := None;
                 up_store := write_file (path stored) w;
                 up_calls := [Write (path stored)] |}
        end
  end.

(** *** middleware/upload.js *)

Definition image_extensions : list string := [".jpg"; ".jpeg"; ".png"; ".gif"].

(** [originalname.match(/\.(jpg|jpeg|png|gif)$/i)] *)
Definition match_image_extension (originalname : string) : bool :=
  existsb (fun ext => endsWith ext (toLowerCase originalname)) image_extensions.

Definition fileFilter (req : request) (f : file_part) : request * option string :=
  if negb (match_image_extension (part_originalname f)) then
    (set_fileValidationError "Only image files (jpg, jpeg, png, gif) are allowed!" req,
     Some "Only image files are allowed!")
  else (req, None).

Definition upload : env -> request -> world -> uploaded :=
  multer_single fileFilter "uploads/profile-pics" fileSize_limit "profileImage".

Definition finish (o : outcome) (u : uploaded) : result :=
  {| out := o; store := up_store u; calls := up_calls u |}.

Definition uploadMiddleware (e : env) (req : request) (w : world) : result :=
  let u := upload e req w in
  match fileValidationError (up_req u) with
  | Some (String c r) => finish (reply 400 (Message (String c r))) u
  | _ =>
      match up_err u with
      | Some (MulterError code m) =>
          if String.eqb code "LIMIT_FILE_SIZE"
          then finish (reply 400 (Message "File size cannot be larger than 5MB!")) u
          else finish (reply 400 (Message m)) u
      | Some (PlainError _) => finish (reply 500 (Message "Error uploading file.")) u
      | None => finish (Next (up_req u)) u
      end
  end.

(** *** The multer set-up of routes/authRoutes.js *)

Definition register_fileFilter (req : request) (f : file_part)
  : request * option string :=
  if startsWith "image/" (part_mimetype f) then (req, None)
  else (req, Some "Not an image! Please upload only images.").

Definition uploadProfilePic : env -> request -> world -> uploaded :=
  multer_single register_fileFilter "uploads/profile-pictures" (5 * 1024 * 1024)
                "profileImage".

(** The first middleware of [POST /register]. *)
Definition register_upload (e : env) (req : request) (w : world) : result :=
  let u := uploadProfilePic e req w in
  match up_err u with
  | Some (MulterError code _) =>
      let message :=
        if String.eqb code "LIMIT_FILE_SIZE" then "Image size cannot exceed 5MB."
        else "File upload error." in
      finish (reply 400 (FieldErrors message [("profileImage", message)])) u
  | Some (PlainError m) =>
      let message := or_else (Some m) "Invalid file type." in
      finish (reply 400 (FieldErrors message [("profileImage", message)])) u
  | None => finish (Next (up_req u)) u
  end.

End Upload.

(** ** The user collection (models/User.js through Mongoose) *)

Fixpoint trimEnd (s : string) : string :=
  match s with
  | EmptyString => EmptyString
  | String c r =>
      match trimEnd r with
      | EmptyString => if is_space c then EmptyString else String c EmptyString
      | r' => String c r'
      end
  end.

Definition trim (s : string) : string := trimEnd (trimStart s).

Definition with_password (pw : option string) (u : user_doc) : user_doc :=
  {| _id := _id u; email := email u; mobileNumber := mobileNumber u;
     password := pw;
     gender := gender u; religion := religion u; doc_role := doc_role u;
     profilePicture := profilePicture u; createdAt := createdAt u;
     location := location u; age := age u; profile := profile u |}.

Definition with_profilePicture (p : string) (u : user_doc) : user_doc :=
  {| _id := _id u; email := email u; mobileNumber := mobileNumber u;
     password := password u;
     gender := gender u; religion := religion u; doc_role := doc_role u;
     profilePicture := p; createdAt := createdAt u;
     location := location u; age := age u; profile := profile u |}.

(** The argument of [.select(...)]; [Unselected] is a query without it. The
    schema declares [password] with [select: false], so only ["+password"]
    brings the field back. *)
Inductive selection := Unselected | MinusPassword | PlusPassword.

Definition select (s : selection) (u : user_doc) : user_doc :=
  match s with
  | PlusPassword => u
  | Unselected | MinusPassword => with_password None u
  end.

(** [doc.toObject()] followed by [delete obj.password]. *)
Definition delete_password (u : user_doc) : user_doc := with_password None u.

Definition CastError (value : string) : js_error :=
  {| err_name := "CastError";
     err_message := "Cast to ObjectId failed for value " +:+ value;
     err_fields := [] |}.

Definition TypeError (prop : string) : js_error :=
  {| err_name := "TypeError";
     err_message := "Cannot read properties of undefined (reading '" +:+ prop +:+ "')";
     err_fields := [] |}.

Definition ValidationError (errs : list (string * string)) : js_error :=
  {| err_name := "ValidationError"; err_message := "User validation failed";
     err_fields := errs |}.

Definition DuplicateKey : js_error :=
  {| err_name := "MongoServerError";
     err_message := "E11000 duplicate key error collection"; err_fields := [] |}.

Section Collection.
Context `{rt : Runtime}.

(** [User.findById(id)], before [.select]: the id is cast first. An id
    that can be cast is then compared with the stored ids as it is written,
    which is the comparison of ObjectIds for an id in the spelling in which
    ids are stored and printed (24 hex digits in lower case; the ids in
    tokens and in answers are spelled so). *)
Definition findById (id : string) (db : list user_doc)
  : js_error + option user_doc :=
  if isObjectId id
  then inr (List.find (fun u => String.eqb (_id u) id) db)
  else inl (CastError id).

(** [User.findOne({$or: [{email}, {mobileNumber}]})]; the schema's
    [lowercase] and [trim] setters are applied to the filter values. *)
Definition findOne_email_or_mobile (em mob : string) (db : list user_doc)
  : option user_doc :=
  List.find (fun u => String.eqb (email u) (trim (toLowerCase em))
                      || String.eqb (mobileNumber u) (trim mob)) db.

(** [doc.save()] of a new document: validation, then the pre-save hook
    that hashes the password, then the insert under the unique indexes on
    [email] and [mobileNumber]. *)
Definition save (e : env) (u : user_doc) (db : list user_doc)
  : js_error + (user_doc * list user_doc) :=
  match validate u with
  | (_ :: _) as errs => inl (ValidationError errs)
  | [] =>
      match store_fault e with
      | Some err => inl err
      | None =>
          if existsb (fun v => String.eqb (email v) (email u)
                               || String.eqb (mobileNumber v) (mobileNumber u)) db
          then inl DuplicateKey
          else
            let saved := with_password (bcrypt_hash <$> password u) u in
            inr (saved, (db ++ [saved])%list)
      end
  end.

Fixpoint update_first (id : string) (f : user_doc -> user_doc)
    (db : list user_doc) : option (user_doc * list user_doc) :=
  match db with
  | [] => None
  | u :: rest =>
      if String.eqb (_id u) id then Some (f u, f u :: rest)
      else match update_first id f rest with
           | Some (v, rest') => Some (v, u :: rest')
           | None => None
           end
  end.

(** [User.findByIdAndUpdate(id, {profilePicture}, {new: true})] *)
Definition findByIdAndUpdate_picture (e : env) (id p : string)
    (db : list user_doc) : js_error + option (user_doc * list user_doc) :=
  if isObjectId id then
    match store_fault e with
    | Some err => inl err
    | None => inr (update_first id (with_profilePicture p) db)
    end
  else inl (CastError id).

End Collection.

(** ** The handlers that consume an upload *)

Definition essential_fields : list string :=
  ["email"; "password"; "mobileNumber"; "name"; "gender"; "dateOfBirth";
   "city"; "state"; "country"].

Definition profile_fields : list string :=
  ["name"; "dateOfBirth"; "heightCm"; "weightKg"; "maritalStatus";
   "motherTongue"; "physicalStatus"; "bodyType"; "complexion";
   "profileCreatedBy"; "city"; "state"; "country"; "caste"; "subCaste";
   "gothra"; "manglik"; "educationLevel"; "educationField"; "occupation";
   "annualIncome"; "fatherStatus"; "motherStatus"; "numberOfSiblings";
   "siblingsMarried"; "familyType"; "familyValues"; "diet"; "smokingHabits";
   "drinkingHabits"; "bio"].

Definition pick (keys : list string) (m : gmap string string) : gmap string string :=
  list_to_map (omap (fun k => pair k <$> m !! k) keys).

(** [if (req.file) fs.unlink(req.file.path, ...)] *)
Definition unlink_upload (req : request) (w : world) : world * list fs_call :=
  match file req with
  | Some f => (unlink (path f) w, [Unlink (path f)])
  | None => (w, [])
  end.

(** middleware/handleValidationError.js *)
Definition handleValidationError (err : js_error) : outcome :=
  if String.eqb (err_name err) "ValidationError"
  then reply 400 (FieldErrors "Validation failed. Please check your input."
                              (err_fields err))
  else reply 400 (FieldErrors "An unexpected validation error occurred." []).

(** A route made of a stateful middleware and a stateful handler. *)
Definition chain (r : result) (k : request -> world -> result) : result :=
  match out r with
  | Next req =>
      let r' := k req (store r) in
      {| out := out r'; store := store r'; calls := (calls r ++ calls r')%list |}
  | _ => r
  end.

Definition pure (o : outcome) (w : world) : result :=
  {| out := o; store := w; calls := [] |}.

Section Consumers.
Context `{rt : Runtime} `{pf : Platform}.

Definition essentials_present (req : request) : bool :=
  forallb (fun k => truthy (body req !! k)) essential_fields.

(** [User.findOne({$or: [{email: email.toLowerCase()}, {mobileNumber}]})] *)
Definition existingUser (req : request) (db : list user_doc) : option user_doc :=
  findOne_email_or_mobile (toLowerCase (default "" (body req !! "email")))
                          (default "" (body req !! "mobileNumber")) db.

(** [new User({...})] with [profilePicture] set when a file came along;
    the schema's setters and defaults are applied. *)
Definition newUser (e : env) (req : request) : user_doc :=
  let b := body req in
  {| _id := new_id e;
     email := trim (toLowerCase (default "" (b !! "email")));
     mobileNumber := trim (default "" (b !! "mobileNumber"));
     password := b !! "password";
     gender := default "" (b !! "gender");
     religion := trim <$> b !! "religion";
     doc_role := "user";
     profilePicture :=
       match file req with
       | Some f => "/uploads/profile-pictures/" +:+ filename f
       | None => ""
       end;
     createdAt := now e;
     location := None; age := None;
     profile := pick profile_fields b |}.

(** The second middleware of [POST /register]. *)
Definition register_handler (e : env) (req : request) (w : world) : result :=
  if negb (essentials_present req) then
    pure (reply 400 (Failure "Missing essential registration fields.")) w
  else
    let email_in := default "" (body req !! "email") in
    let mobile_in := default "" (body req !! "mobileNumber") in
    match existingUser req (users w) with
    | Some existing =>
        let message :=
          if String.eqb (email existing) (toLowerCase email_in)
          then "An account with this email already exists."
          else if String.eqb (mobileNumber existing) mobile_in
          then "An account with this mobile number already exists."
          else "User already exists." in
        let '(w', cs) := unlink_upload req w in
        {| out := reply 400 (Failure message); store := w'; calls := cs |}
    | None =>
        match save e (newUser e req) (users w) with
        | inr (savedUser, db) =>
            let token := jwt_sign (_id savedUser) (doc_role savedUser) in
            {| out := reply 201 (Registered token (delete_password savedUser));
               store := set_users db w; calls := [] |}
        | inl err =>
            let '(w', cs) :=
              if String.eqb (err_name err) "ValidationError"
              then unlink_upload req w else (w, []) in
            {| out := if String.eqb (err_name err) "ValidationError"
                      then handleValidationError err
                      else reply 500 (Failure "Server error during registration.");
               store := w'; calls := cs |}
        end
    end.

(** [POST /api/auth/register] *)
Definition register_route (e : env) (req : request) (w : world) : result :=
  chain (register_upload e req w) (register_handler e).

(** The handler of [POST /me/upload-picture]. *)
Definition upload_picture_handler (e : env) (req : request) (w : world)
  : result :=
  match file req with
  | None => pure (reply 400 (Message "No file uploaded or middleware error occurred.")) w
  | Some f =>
      let isAdminRequest :=
        bool_decide (header req "X-Admin-Request" = Some TRUE) in
      let targetUserId : outcome + string :=
        if isAdminRequest then
          match body req !! "userId" with
          | Some (String c r) => inr (String c r)
          | _ => inl (reply 400 (Message "Admin upload request requires userId in body"))
          end
        else
          match user req with
          | Some {| userId := String c r |} => inr (String c r)
          | _ => inl (reply 401 (Message "User ID not found in token for standard upload"))
          end in
      match targetUserId with
      | inl o => pure o w
      | inr targetUserId =>
          let filePath := "/uploads/profile-pics/" +:+ filename f in
          match findByIdAndUpdate_picture e targetUserId filePath (users w) with
          | inr (Some (u, db)) =>
              {| out := reply 200 (PictureUploaded filePath (select MinusPassword u));
                 store := set_users db w; calls := [] |}
          | inr None => pure (reply 404 (Message "User not found for picture update")) w
          | inl err =>
              if String.eqb (err_name err) "CastError"
              then pure (reply 400 (Message "Invalid user ID format provided")) w
              else pure (NextErr err) w
          end
      end
  end.

(** [POST /api/profiles/me/upload-picture]:
    [[authMiddleware, uploadMiddleware]] and then the handler. *)
Definition upload_picture_route (e : env) (req : request) (w : world)
  : result :=
  chain (chain (pure (authMiddleware req) w) (uploadMiddleware e))
        (upload_picture_handler e).

End Consumers.

(** ** Profile queries *)

(** [.sort({createdAt: -1})]: newest first. Documents created at the same
    instant keep their insertion order here; the store promises no order
    among them, and the page contract ([page_of]) is stated for any. *)
Fixpoint insert_newest (u : user_doc) (l : list user_doc) : list user_doc :=
  match l with
  | [] => [u]
  | v :: r =>
      if createdAt v <=? createdAt u then u :: v :: r
      else v :: insert_newest u r
  end.

Definition newest_first (l : list user_doc) : list user_doc :=
  foldr insert_newest [] l.

Definition BadValue (what : string) : js_error :=
  {| err_name := "MongoServerError"; err_message := what; err_fields := [] |}.

(** [Model.find(q).sort({createdAt: -1}).skip(s).limit(l)], whatever the
    order of the three calls: the store sorts, skips, then limits. A negative
    skip and a skip or limit that is [NaN] or an infinity are refused; a
    limit of [0] is no limit and a negative limit counts as its absolute
    value. *)
Definition find_page (q : user_doc -> bool) (s l : jsnum) (db : list user_doc)
  : js_error + list user_doc :=
  match s, l with
  | JInt s, JInt l =>
      if s <? 0 then inl (BadValue "skip must be non-negative")
      else
        let rest := drop (Z.to_nat s) (newest_first (List.filter q db)) in
        inr (if l =? 0 then rest else take (Z.to_nat (Z.abs l)) rest)
  | _, _ => inl (BadValue "skip and limit must be numbers")
  end.

(** [Model.countDocuments(q)] *)
Definition countDocuments (q : user_doc -> bool) (db : list user_doc) : Z :=
  Z.of_nat (length (List.filter q db)).

(** The filter object the search handler builds. *)
Record search_filter := {
  ne_id : string;                                  (* _id: {$ne: ...} *)
  f_gender : option string;                        (* gender *)
  f_location : option (string -> bool);            (* location: {$regex} *)
  f_religion : option (string -> bool);            (* religion: {$regex} *)
  f_age : option (option string * option string);  (* age: {$gte, $lte} *)
}.

(** When the server's wall clock says the day and the month began, in
    milliseconds. *)
Record calendar := {
  today : Z;
  firstDayOfMonth : Z;
}.

Definition SyntaxError (source : string) : js_error :=
  {| err_name := "SyntaxError";
     err_message := "Invalid regular expression: /" +:+ source +:+ "/";
     err_fields := [] |}.

Section Queries.
Context `{rt : Runtime}.

Definition test_opt (t : option (string -> bool)) (v : option string) : bool :=
  match t, v with
  | None, _ => true
  | Some test, Some s => test s
  | Some _, None => false
  end.

Definition age_in (r : option (option string * option string)) (a : option Z)
  : bool :=
  match r, a with
  | None, _ => true
  | Some (lo, hi), Some n =>
      match lo with Some s => Number_le s n | None => true end
      && match hi with Some s => Number_ge s n | None => true end
  | Some _, None => false
  end.

(** Does a stored document satisfy the filter. [location] and [age] are
    not schema paths: under [strictQuery] Mongoose drops them from the
    filter. *)
Definition matches (f : search_filter) (u : user_doc) : bool :=
  negb (String.eqb (_id u) (ne_id f))
  && match f_gender f with
     | Some g => String.eqb (gender u) g
     | None => true
     end
  && test_opt (f_religion f) (religion u)
  && (strictQuery
      || (test_opt (f_location f) (location u) && age_in (f_age f) (age u))).

(** [if (p) ... new RegExp(p, "i")] *)
Definition regex_param (p : option string)
  : js_error + option (string -> bool) :=
  match p with
  | Some (String c r) =>
      match RegExp_i (String c r) with
      | Some test => inr (Some test)
      | None => inl (SyntaxError (String c r))
      end
  | _ => inr None
  end.

Definition nonempty (p : option string) : option string :=
  match p with
  | Some (String c r) => Some (String c r)
  | _ => None
  end.

(** The filter of [GET /search], or the exception thrown while it is
    built. *)
Definition search_filter_of (req : request) : js_error + search_filter :=
  match user req with
  | None => inl (TypeError "userId")
  | Some caller =>
      let q := query req in
      match regex_param (q !! "location") with
      | inl err => inl err
      | inr loc =>
          match regex_param (q !! "religion") with
          | inl err => inl err
          | inr rel =>
              inr {| ne_id := userId caller;
                     f_gender := nonempty (q !! "gender");
                     f_location := loc;
                     f_religion := rel;
                     f_age :=
                       if truthy (q !! "minAge") || truthy (q !! "maxAge")
                       then Some (nonempty (q !! "minAge"), nonempty (q !! "maxAge"))
                       else None |}
          end
      end
  end.

(** [const { page = 1 } = req.query; parseInt(page, 10)] *)
Definition int_param (req : request) (name : string) (dflt : Z) : jsnum :=
  match query req !! name with
  | Some s => parseInt s (Some 10)
  | None => JInt dflt
  end.

(** The handler of [GET /search]. *)
Definition search_handler (db : list user_doc) (req : request) : outcome :=
  match search_filter_of req with
  | inl err => NextErr err
  | inr f =>
      let pageNum := int_param req "page" 1 in
      let limitNum := int_param req "limit" 10 in
      let skip := pred_times pageNum limitNum in
      if negb (isObjectId (ne_id f)) then NextErr (CastError (ne_id f))
      else
        match find_page (matches f) skip limitNum db with
        | inl err => NextErr err
        | inr found =>
            let count := countDocuments (matches f) db in
            reply 200 (SearchResults (map (select MinusPassword) found) count
                                     pageNum limitNum (ceil_div count limitNum))
        end
  end.

(** [GET /api/profiles/search] *)
Definition search_route (db : list user_doc) (req : request) : outcome :=
  and_then (authMiddleware req) (search_handler db).

(** [GET /api/profiles/], without a gate. *)
Definition profiles_route (db : list user_doc) (req : request) : outcome :=
  let pageNum := int_param req "page" 1 in
  let limitNum := int_param req "limit" 10 in
  let skip := pred_times pageNum limitNum in
  match find_page (fun _ => true) skip limitNum db with
  | inl err => NextErr err
  | inr found =>
      reply 200 (Profiles (countDocuments (fun _ => true) db)
                          (map (select MinusPassword) found))
  end.

(** [GET /api/profiles/me] *)
Definition me_route (db : list user_doc) (req : request) : outcome :=
  and_then (authMiddleware req) (fun req =>
    match user req with
    | None => NextErr (TypeError "userId")
    | Some caller =>
        match findById (userId caller) db with
        | inl err => NextErr err
        | inr None => reply 404 (Message "User not found")
        | inr (Some u) => reply 200 (OneUser (select MinusPassword u))
        end
    end).

(** [GET /api/profiles/:id] *)
Definition profile_by_id_route (db : list user_doc) (req : request) : outcome :=
  and_then (authMiddleware req) (fun req =>
    match findById (default "" (params_id req)) db with
    | inl err =>
        if String.eqb (err_name err) "CastError"
        then reply 400 (Failure "Invalid profile ID format")
        else NextErr err
    | inr None => reply 404 (Failure "Profile not found")
    | inr (Some u) => reply 200 (OneProfile (select MinusPassword u))
    end).

(** *** routes/adminRoutes.js: [router.use(staticAdminMiddleware)] *)

Definition admin_router (handler : request -> outcome) (req : request)
  : outcome :=
  and_then (staticAdminMiddleware req) handler.

(** The [query] object of [GET /users]: a bound on [createdAt] for the
    filters [week] and [month], nothing otherwise. *)
Definition admin_query (cal : calendar) (filterType : string) (u : user_doc)
  : bool :=
  let oneWeekAgo := today cal - 7 * 24 * 60 * 60 * 1000 in
  if String.eqb filterType "week" then oneWeekAgo <=? createdAt u
  else if String.eqb filterType "month" then firstDayOfMonth cal <=? createdAt u
  else true.

(** [parseInt(req.query[name]) || dflt] *)
Definition int_param_or (req : request) (name : string) (dflt : Z) : jsnum :=
  num_or (match query req !! name with
          | Some s => parseInt s None
          | None => JNaN
          end) dflt.

(** The handler of [GET /users]. *)
Definition admin_users_handler (cal : calendar) (db : list user_doc)
    (req : request) : outcome :=
  let page := int_param_or req "page" 1 in
  let limit := int_param_or req "limit" 9 in
  let filterType := or_else (query req !! "filter") "recent" in
  let skip := pred_times page limit in
  let q := admin_query cal filterType in
  let totalUsers := countDocuments q db in
  match find_page q skip limit db with
  | inl err => NextErr err
  | inr found =>
      reply 200 (AdminUsers (map (select Unselected) found) totalUsers
                            (ceil_div totalUsers limit) page limit filterType)
  end.

(** [GET /api/admin/users] *)
Definition admin_users_route (cal : calendar) (db : list user_doc)
  : request -> outcome :=
  admin_router (admin_users_handler cal db).

(** [GET /api/admin/users/:id] *)
Definition admin_user_route (db : list user_doc) : request -> outcome :=
  admin_router (fun req =>
    match findById (default "" (params_id req)) db with
    | inl err =>
        if String.eqb (err_name err) "CastError"
        then reply 400 (Message "Invalid user ID format")
        else NextErr err
    | inr None => reply 404 (Message "User not found")
    | inr (Some u) => reply 200 (OneUser (delete_password (select Unselected u)))
    end).

End Queries.

(** The user documents a JSON body carries. *)
Definition payload_docs (p : payload) : list user_doc :=
  match p with
  | Registered _ u | PictureUploaded _ u | OneProfile u | OneUser u => [u]
  | SearchResults us _ _ _ _ | Profiles _ us | AdminUsers us _ _ _ _ _ => us
  | Message _ | Failure _ | FieldErrors _ _ | ErrorOnly _ => []
  end.

(** ** A runtime, a platform and a collection to run the model on *)

Fixpoint includes (p s : string) : bool :=
  startsWith p s
  || match s with
     | String _ r => includes p r
     | EmptyString => false
     end.

Fixpoint all_hex (s : string) : bool :=
  match s with
  | EmptyString => true
  | String c r =>
      match digit_val c with
      | Some d => (d <? 16) && all_hex r
      | None => false
      end
  end.

Definition alice : token_payload :=
  {| userId := "65f0000000000000000000a1"; role := "user"; iat := 1000; exp := 87400 |}.

Definition sample_verify (token : string) : jwt_error + token_payload :=
  if String.eqb token "alice.jwt" then inr alice
  else if String.eqb token "stale.jwt" then inl (TokenExpiredError 900)
  else inl (JsonWebTokenError "invalid signature").

Definition sample_number (s : string) : Z :=
  match parseInt s (Some 10) with
  | JInt z => z
  | _ => 0
  end.

Definition sample_runtime : Runtime :=
  {| jwt_verify := sample_verify;
     jwt_sign := fun id role => id +:+ "." +:+ role +:+ ".jwt";
     RegExp_i := fun source =>
       Some (fun s => includes (toLowerCase source) (toLowerCase s));
     Number_le := fun s n => sample_number s <=? n;
     Number_ge := fun s n => n <=? sample_number s;
     isObjectId := fun s => (String.length s =? 24)%nat && all_hex s;
     validate := fun u =>
       if includes "@" (email u) then []
       else [("email", "Please use a valid email address.")];
     bcrypt_hash := fun pw => "$2a$10$" +:+ pw;
     strictQuery := false |}.

Definition sample_platform : Platform :=
  {| path_extname := fun name =>
       match rev (split_on "." name) with
       | ext :: _ :: _ => "." +:+ ext
       | _ => ""
       end;
     show := pretty |}.

Definition sample_env : env :=
  {| now := 1700000000000; random := 123456789;
     new_id := "65f0000000000000000000c3"; store_fault := None |}.

Definition sample_doc (id mail mobile : string) (born : Z) : user_doc :=
  {| _id := id; email := mail; mobileNumber := mobile;
     password := Some "$2a$10$stored-hash";
     gender := "Female"; religion := Some "Hindu"; doc_role := "user";
     profilePicture := ""; createdAt := born;
     location := None; age := None; profile := ∅ |}.

Definition sample_users : list user_doc :=
  [ sample_doc "65f0000000000000000000a1" "alice@x.com" "9000000001" 100;
    sample_doc "65f0000000000000000000b2" "bina@x.com" "9000000002" 300;
    sample_doc "65f0000000000000000000b3" "chitra@x.com" "9000000003" 200 ].

Definition sample_world : world := {| files := ∅; users := sample_users |}.

Definition bare_request : request :=
  {| headers := ∅; query := ∅; body := ∅; params_id := None;
     multipart := None; user := None; file := None;
     fileValidationError := None |}.

Definition with_headers (hs : gmap string string) (req : request) : request :=
  {| headers := hs; query := query req; body := body req;
     params_id := params_id req; multipart := multipart req; user := user req;
     file := file req; fileValidationError := fileValidationError req |}.

Definition with_query (q : gmap string string) (req : request) : request :=
  {| headers := headers req; query := q; body := body req;
     params_id := params_id req; multipart := multipart req; user := user req;
     file := file req; fileValidationError := fileValidationError req |}.

Definition with_body (b : gmap string string) (req : request) : request :=
  {| headers := headers req; query := query req; body := b;
     params_id := params_id req; multipart := multipart req; user := user req;
     file := file req; fileValidationError := fileValidationError req |}.

Definition with_multipart (f : file_part) (req : request) : request :=
  {| headers := headers req; query := query req; body := body req;
     params_id := params_id req; multipart := Some f; user := user req;
     file := file req; fileValidationError := fileValidationError req |}.

Definition alice_request : request :=
  with_headers {[ "authorization" := "Bearer alice.jwt" ]} bare_request.

Definition admin_request : request :=
  with_headers {[ "x-admin-request" := "true" ]} bare_request.

(** The three refusals of the gates. *)
Definition denied_401 : outcome :=
  reply 401 (Message "No token or admin header, authorization denied").

Definition invalid_401 : outcome := reply 401 (Message "Token is not valid").

Definition forbidden_403 : outcome := reply 403 (Message "Admin privileges required").

Definition forged_request : request :=
  with_headers {[ "authorization" := "Bearer forged.jwt" ]} bare_request.

Definition stale_request : request :=
  with_headers {[ "authorization" := "Bearer stale.jwt" ]} bare_request.

Definition picture_part (name type : string) (size : Z) : file_part :=
  {| part_fieldname := "profileImage"; part_originalname := name;
     part_mimetype := type; part_size := size |}.

(** The file a route admitted and handed on, if it did. *)
Definition admitted (r : result) : option stored_file :=
  match out r with
  | Next req => file req
  | _ => None
  end.

(** The rollback contract in the words of the specification: when a run
    wrote a file and ends in an error answer, the file is not in storage any
    more. *)
Definition rolled_back (r : result) : Prop :=
  forall p res,
    In (Write p) (calls r) ->
    answer (out r) = Some res -> 400 <= status res ->
    p ∉ files (store r).


(** A world in which the account behind alice's token is gone. *)
Definition orphan_world : world := {| files := ∅; users := [] |}.

Definition alice_upload : request :=
  with_multipart (picture_part "me.png" "image/png" 2048) alice_request.

Definition disguised_upload : request :=
  with_multipart (picture_part "notes.txt" "image/png" 2048) bare_request.

Definition conflicting_registration : request :=
  with_body {[ "email" := "Alice@X.com"; "password" := "secret1";
               "mobileNumber" := "9000000009"; "name" := "Alice";
               "gender" := "Female"; "dateOfBirth" := "1995-01-01";
               "city" := "Pune"; "state" := "MH"; "country" := "India" ]}
            alice_upload.

(** A registration that loses the race for a unique index. *)
Definition racing_registration : request :=
  with_body {[ "email" := "dina@x.com"; "password" := "secret1";
               "mobileNumber" := "9000000009"; "name" := "Dina";
               "gender" := "Female"; "dateOfBirth" := "1995-01-01";
               "city" := "Pune"; "state" := "MH"; "country" := "India" ]}
            alice_upload.

Definition racing_env : env :=
  {| now := 1700000000000; random := 123456789;
     new_id := "65f0000000000000000000c3"; store_fault := Some DuplicateKey |}.

(** [a] was created no earlier than [b]. *)
Definition not_older (a b : user_doc) : Prop := createdAt b <= createdAt a.

(** Page [p] of size [l] in the words of the specification: of the matching
    documents, newest first, skip [(p - 1) * l] and keep at most [l]. *)
Definition page_window (p l : Z) (q : user_doc -> bool) (db : list user_doc)
  : list user_doc :=
  take (Z.to_nat l) (drop (Z.to_nat ((p - 1) * l)) (newest_first (List.filter q db))).

(** The same page without a word on the order among documents created at
    the same instant: [found] is the stretch after the first [(p - 1) * l]
    and of at most [l] documents of some newest-first arrangement of the
    matching documents. *)
Definition page_of (p l : Z) (q : user_doc -> bool) (db found : list user_doc)
  : Prop :=
  exists ordered,
    Permutation ordered (List.filter q db)
    /\ StronglySorted not_older ordered
    /\ found = take (Z.to_nat l) (drop (Z.to_nat ((p - 1) * l)) ordered).

(** No document in what the route sends carries a password. *)
Definition password_free (o : outcome) : Prop :=
  forall res, answer o = Some res ->
    forall u, In u (payload_docs (json res)) -> password u = None.

Definition alice_page_2 : request :=
  with_query {[ "page" := "2"; "limit" := "1" ]} alice_request.

Definition admin_page_2 : request :=
  with_query {[ "page" := "2"; "limit" := "2" ]} admin_request.

Definition sample_calendar : calendar := {| today := 1000; firstDayOfMonth := 500 |}.

(** A day on which the week began at instant 250 and the month at 150. *)
Definition busy_calendar : calendar :=
  {| today := 604800250; firstDayOfMonth := 150 |}.

(** The spelling in which an ObjectId is printed and stored: 24 hex digits
    in lower case. *)
Definition canonical_id (id : string) : bool :=
  (String.length id =? 24)%nat && all_hex id && String.eqb (toLowerCase id) id.

(** ** The write routes: login, admin create and delete, update by id *)

(** The libraries behind the login route: bcryptjs and express-validator. *)
Class Login := {
  (** [bcrypt.compare(candidate, hash)] *)
  bcrypt_compare : string -> string -> bool;
  (** the validator [isEmail()] *)
  isEmail : string -> bool;
  (** the sanitizer [normalizeEmail()] *)
  normalizeEmail : string -> string;
}.

(** What the write queries leave to Mongoose: how the body of [PUT /:id]
    is cast into an update of a stored document, and which selection
    [findByIdAndDelete] applies to the document it returns ([Unselected]
    when it honours the schema's [select: false], ["+password"] when it
    returns the stored document as it is). *)
Class Update := {
  cast_update : gmap string string -> user_doc -> user_doc;
  delete_selection : selection;
}.

(** The JSON bodies of the admin write routes and of [PUT /:id]. *)
Inductive write_body :=
| WMessage (message : string)
| WRequired (message : string) (required : list string)
| WErrors (message : string) (errors : list string)
| WCreated (message : string) (u : user_doc)       (* message, user, success *)
| WDeleted (message : string) (deletedUser : user_doc)
| WDocument (u : user_doc).                        (* the document itself *)

(** How a write route ends: with its own answer, with the refusal of a
    gate, or with an error passed to [next]. *)
Inductive write_outcome :=
| Sent (code : Z) (b : write_body)
| Refused (res : response)
| Thrown (err : js_error).

Record write_result := {
  w_out : write_outcome;
  w_users : list user_doc;
}.

Definition written (o : write_outcome) (db : list user_doc) : write_result :=
  {| w_out := o; w_users := db |}.

(** The user documents a write answer carries. *)
Definition write_docs (o : write_outcome) : list user_doc :=
  match o with
  | Sent _ (WCreated _ u) | Sent _ (WDeleted _ u) | Sent _ (WDocument u) => [u]
  | _ => []
  end.

Definition admin_required : list string :=
  ["name"; "email"; "password"; "mobileNumber"; "gender"; "dateOfBirth";
   "city"; "state"].

Definition admin_profile_fields : list string :=
  ["name"; "dateOfBirth"; "city"; "state"; "maritalStatus"; "motherTongue";
   "educationLevel"; "occupation"; "annualIncome"].

(** [Model.findByIdAndDelete(id)] once the id is cast: the first document
    with the id leaves the collection. As in [findById], the id is compared
    as it is written, which is right for an id spelled as ids are stored. *)
Fixpoint remove_first (id : string) (db : list user_doc)
  : option (user_doc * list user_doc) :=
  match db with
  | [] => None
  | u :: rest =>
      if String.eqb (_id u) id then Some (u, rest)
      else match remove_first id rest with
           | Some (v, rest') => Some (v, u :: rest')
           | None => None
           end
  end.

Definition BcryptError : js_error :=
  {| err_name := "Error"; err_message := "Illegal arguments: string, undefined";
     err_fields := [] |}.

Section Login.
Context `{rt : Runtime} `{lg : Login}.

(** The validation chain of [POST /login]:
    [body("email").isEmail()], [body("password").notEmpty()]. *)
Definition login_errors (req : request) : list (string * string) :=
  ((if isEmail (default "" (body req !! "email")) then []
    else [("email", "Enter a valid email")])
   ++ (if truthy (body req !! "password") then []
       else [("password", "Password is required")]))%list.

(** [User.findOne({email})]; the schema's setters apply to the value. *)
Definition findOne_email (em : string) (db : list user_doc) : option user_doc :=
  List.find (fun u => String.eqb (email u) (trim (toLowerCase em))) db.

(** [userSchema.methods.comparePassword]: the document is fetched again by
    its id with ["+password"] and the candidate is compared to its hash. *)
Definition comparePassword (this : user_doc) (candidatePassword : string)
    (db : list user_doc) : js_error + bool :=
  match List.find (fun v => String.eqb (_id v) (_id this)) db with
  | None => inr false
  | Some userWithPassword =>
      match password (select PlusPassword userWithPassword) with
      | Some hash => inr (bcrypt_compare candidatePassword hash)
      | None => inl BcryptError
      end
  end.

(** [POST /api/auth/login] *)
Definition login_route (db : list user_doc) (req : request) : outcome :=
  match login_errors req with
  | (_ :: _) as errors => reply 400 (FieldErrors "Validation failed" errors)
  | [] =>
      let email_in := normalizeEmail (default "" (body req !! "email")) in
      let password_in := default "" (body req !! "password") in
      match findOne_email (toLowerCase email_in) db with
      | None => reply 401 (Failure "Invalid email or password.")
      | Some found =>
          match comparePassword found password_in db with
          | inl _ => reply 500 (Failure "Server error during login.")
          | inr false => reply 401 (Failure "Invalid email or password.")
          | inr true =>
              let token := jwt_sign (_id found) (doc_role found) in
              reply 200 (Registered token
                           (delete_password (select PlusPassword found)))
          end
      end
  end.

End Login.

Section AdminWrites.
Context `{rt : Runtime} `{up : Update}.

(** [router.use(staticAdminMiddleware)] in front of a handler that writes. *)
Definition admin_write_router
    (handler : request -> list user_doc -> write_result)
    (req : request) (db : list user_doc) : write_result :=
  match staticAdminMiddleware req with
  | Next req' => handler req' db
  | Respond res => written (Refused res) db
  | NextErr err => written (Thrown err) db
  end.

(** [User.findOne({mobileNumber})] *)
Definition findOne_mobile (mob : string) (db : list user_doc) : option user_doc :=
  List.find (fun u => String.eqb (mobileNumber u) (trim mob)) db.

(** The document [POST /users] builds: the password it is given is already
    hashed by the handler; [isVerified] and [isActive] are kept with the
    profile fields. *)
Definition admin_newUser (e : env) (req : request) : user_doc :=
  let b := body req in
  let hashedPassword := bcrypt_hash <$> b !! "password" in
  {| _id := new_id e;
     email := trim (toLowerCase (default "" (b !! "email")));
     mobileNumber := trim (default "" (b !! "mobileNumber"));
     password := hashedPassword;
     gender := default "" (b !! "gender");
     religion := trim <$> b !! "religion";
     doc_role := "user";
     profilePicture := "";
     createdAt := now e;
     location := None; age := None;
     profile :=
       <["isActive" := "true"]>
         (<["isVerified" := "true"]>
            (<["country" := or_else (b !! "country") "India"]>
               (pick admin_profile_fields b))) |}.

(** The handler of [POST /users]. *)
Definition admin_create_handler (e : env) (req : request) (db : list user_doc)
  : write_result :=
  if negb (forallb (fun k => truthy (body req !! k)) admin_required) then
    written (Sent 400 (WRequired "Missing required fields" admin_required)) db
  else
    match findOne_email (default "" (body req !! "email")) db with
    | Some _ => written (Sent 400 (WMessage "User with this email already exists")) db
    | None =>
        match findOne_mobile (default "" (body req !! "mobileNumber")) db with
        | Some _ =>
            written (Sent 400 (WMessage "User with this mobile number already exists")) db
        | None =>
            match save e (admin_newUser e req) db with
            | inr (saved, db') =>
                written (Sent 201 (WCreated "User created successfully" saved)) db'
            | inl err =>
                if String.eqb (err_name err) "ValidationError"
                then written (Sent 400 (WErrors "Validation error"
                                          (map snd (err_fields err)))) db
                else written (Thrown err) db
            end
        end
    end.

(** [POST /api/admin/users] *)
Definition admin_create_route (e : env)
  : request -> list user_doc -> write_result :=
  admin_write_router (admin_create_handler e).

(** The handler of [DELETE /users/:id]; its [catch] passes every error on. *)
Definition admin_delete_handler (e : env) (req : request) (db : list user_doc)
  : write_result :=
  let id := default "" (params_id req) in
  if isObjectId id then
    match store_fault e with
    | Some err => written (Thrown err) db
    | None =>
        match remove_first id db with
        | Some (deletedUser, db') =>
            written (Sent 200 (WDeleted "User deleted successfully"
                                 (select delete_selection deletedUser))) db'
        | None => written (Sent 404 (WMessage "User not found")) db
        end
    end
  else written (Thrown (CastError id)) db.

(** [DELETE /api/admin/users/:id] *)
Definition admin_delete_route (e : env)
  : request -> list user_doc -> write_result :=
  admin_write_router (admin_delete_handler e).

End AdminWrites.

Section UpdateById.
Context `{rt : Runtime} `{up : Update}.

(** [PUT /api/profiles/:id]: the gate, the ownership test, then
    [findByIdAndUpdate(req.params.id, req.body, {new: true})]. *)
Definition update_profile_route (e : env) (req : request) (db : list user_doc)
  : write_result :=
  match authMiddleware req with
  | Respond res => written (Refused res) db
  | NextErr err => written (Thrown err) db
  | Next req =>
      match user req with
      | None => written (Thrown (TypeError "userId")) db
      | Some caller =>
          let id := default "" (params_id req) in
          if negb (String.eqb (userId caller) id) then
            written (Sent 403 (WMessage "Unauthorized action")) db
          else if negb (isObjectId id) then
            written (Sent 400 (WMessage "Invalid profile ID format")) db
          else
            match store_fault e with
            | Some err =>
                if String.eqb (err_name err) "CastError"
                then written (Sent 400 (WMessage "Invalid profile ID format")) db
                else written (Thrown err) db
            | None =>
                match update_first id (cast_update (body req)) db with
                | Some (updatedProfile, db') =>
                    written (Sent 200 (WDocument (select MinusPassword updatedProfile))) db'
                | None => written (Sent 404 (WMessage "Profile not found")) db
                end
            end
      end
  end.

End UpdateById.

(** Libraries and requests to run the write routes on. *)
Definition sample_login : Login :=
  {| bcrypt_compare := fun candidate hash => String.eqb hash ("$2a$10$" +:+ candidate);
     isEmail := includes "@";
     normalizeEmail := toLowerCase |}.

Definition sample_update : Update :=
  {| cast_update := fun b u =>
       match b !! "role" with
       | Some r =>
           {| _id := _id u; email := email u; mobileNumber := mobileNumber u;
              password := password u; gender := gender u; religion := religion u;
              doc_role := r; profilePicture := profilePicture u;
              createdAt := createdAt u; location := location u; age := age u;
              profile := profile u |}
       | None => u
       end;
     delete_selection := Unselected |}.

Definition with_params_id (id : string) (req : request) : request :=
  {| headers := headers req; query := query req; body := body req;
     params_id := Some id; multipart := multipart req; user := user req;
     file := file req; fileValidationError := fileValidationError req |}.

Definition login_request (mail pw : string) : request :=
  with_body {[ "email" := mail; "password" := pw ]} bare_request.

Definition new_registration : request :=
  with_body {[ "email" := "Dina@X.com"; "password" := "secret1";
               "mobileNumber" := "9000000009"; "name" := "Dina";
               "gender" := "Female"; "dateOfBirth" := "1995-01-01";
               "city" := "Pune"; "state" := "MH"; "country" := "India" ]}
            (with_multipart (picture_part "me.png" "image/png" 2048) bare_request).

Definition admin_creation : request :=
  with_body {[ "email" := "Dina@X.com"; "password" := "secret1";
               "mobileNumber" := "9000000009"; "name" := "Dina";
               "gender" := "Female"; "dateOfBirth" := "1995-01-01";
               "city" := "Pune"; "state" := "MH" ]} admin_request.

(** Does a string hold the character. *)
Fixpoint has_char (c : ascii) (s : string) : bool :=
  match s with
  | EmptyString => false
  | String d r => Ascii.eqb d c || has_char c r
  end.

(** A picture sent without any credentials. *)
Definition alice_upload_anonymous : request :=
  with_multipart (picture_part "me.png" "image/png" 2048) bare_request.

(** * Properties *)

(** ** JavaScript helpers *)

Example split_bearer : split_on " " "Bearer abc def" = ["Bearer"; "abc"; "def"].
Proof. reflexivity. Qed.

Example split_no_space : split_on " " "Bearer" = ["Bearer"].
Proof. reflexivity. Qed.

Example parseInt_prefix : parseInt " -12px" (Some 10) = JInt (-12).
Proof. reflexivity. Qed.

Example parseInt_hex : parseInt "0x1f" None = JInt 31.
Proof. reflexivity. Qed.

Example parseInt_nan : parseInt "abc" (Some 10) = JNaN.
Proof. reflexivity. Qed.

(** Beyond [2 ^ 53] the digits are rounded to the nearest number, a tie
    going to the even mantissa; beyond the largest number they are an
    infinity. *)
Example parseInt_beyond_safe :
  parseInt "9007199254740992" (Some 10) = JInt 9007199254740992
  /\ parseInt "9007199254740993" (Some 10) = JInt 9007199254740992
  /\ parseInt "9007199254740995" (Some 10) = JInt 9007199254740996
  /\ parseInt "-9007199254740997" (Some 10) = JInt (-9007199254740996)
  /\ parseInt "123456789012345678901234567890" None
     = JInt 123456789012345677877719597056.
Proof. repeat split; vm_compute; reflexivity. Qed.

Example parseInt_infinity :
  parseInt (String.concat "" (repeat "9999999999" 31)) (Some 10) = JInf false
  /\ parseInt ("-" +:+ String.concat "" (repeat "9999999999" 31)) (Some 10)
     = JInf true
  /\ exists z, parseInt (String.concat "" (repeat "9999999999" 30)) (Some 10)
               = JInt z.
Proof. repeat split; try (vm_compute; reflexivity). eexists. vm_compute. reflexivity. Qed.

Example ceil_div_21_10 : ceil_div 21 (JInt 10) = JInt 3.
Proof. reflexivity. Qed.

Example ceil_div_0_0 : ceil_div 0 (JInt 0) = JNaN.
Proof. reflexivity. Qed.

(** ** The gates *)

Section GateProperties.
Context `{rt : Runtime}.

Lemma header_set_authorization req name v :
  toLowerCase name = "x-admin-request" ->
  header (set_header "authorization" v req) name = header req name.
Proof.
  intros Hlc. unfold header. rewrite Hlc. simpl.
  destruct v; simpl.
  - by rewrite lookup_insert_ne.
  - by rewrite lookup_delete_ne.
Qed.

Lemma bearer_token_absent req :
  header req "Authorization" = None -> bearer_token req = None.
Proof. unfold bearer_token. by intros ->. Qed.

(** The gate reaches [jwt.verify] only with a non-empty token and without
    the admin header. *)
Lemma authMiddleware_no_token req :
  header req "X-Admin-Request" <> Some TRUE ->
  truthy (bearer_token req) = false ->
  authMiddleware req
  = reply 401 (Message "No token or admin header, authorization denied").
Proof.
  intros Hadm Htok. unfold authMiddleware.
  destruct (decide _) as [|_]; [done|].
  destruct (bearer_token req) as [[|c r]|]; done.
Qed.

Lemma authMiddleware_token req t :
  header req "X-Admin-Request" <> Some TRUE ->
  bearer_token req = Some t -> t <> "" ->
  authMiddleware req
  = match jwt_verify t with
    | inr decoded => Next (set_user decoded req)
    | inl _ => reply 401 (Message "Token is not valid")
    end.
Proof.
  intros Hadm Htok Hne. unfold authMiddleware.
  destruct (decide _) as [|_]; [done|].
  rewrite Htok. by destruct t.
Qed.

End GateProperties.

(** C3. A request whose [X-Admin-Request] header is exactly ["true"] is
    passed on by the access gate at once: for every [jwt.verify] (every
    [Runtime]) and whatever the [Authorization] header is set to, absent, a
    valid token or an invalid one, the gate calls [next()] on the request. *)
Theorem admin_header_precedes_token_check (rt : Runtime) (req : request) :
  header req "X-Admin-Request" = Some TRUE ->
  authMiddleware req = Next req
  /\ forall authorization : option string,
       authMiddleware (set_header "authorization" authorization req)
       = Next (set_header "authorization" authorization req).
Proof.
  intros Hadm. split.
  - unfold authMiddleware. by rewrite decide_True.
  - intros a. unfold authMiddleware.
    rewrite decide_True; [done|].
    by rewrite header_set_authorization.
Qed.

Lemma admin_header_precedes_token_check_witness :
  header admin_request "X-Admin-Request" = Some TRUE
  /\ (@authMiddleware sample_runtime admin_request = Next admin_request
      /\ forall authorization : option string,
           @authMiddleware sample_runtime
             (set_header "authorization" authorization admin_request)
           = Next (set_header "authorization" authorization admin_request)).
Proof.
  split; [reflexivity|].
  apply (admin_header_precedes_token_check sample_runtime admin_request).
  reflexivity.
Defined.

Example admin_bypass_with_forged_token :
  @authMiddleware sample_runtime
    (set_header "authorization" (Some "Bearer forged.jwt") admin_request)
  = Next (set_header "authorization" (Some "Bearer forged.jwt") admin_request).
Proof. reflexivity. Qed.

(** C4. The gate of the admin router looks at the [x-admin-request] header
    only: a request whose header is not exactly ["true"] gets 403 from every
    admin route, and it still does when its [Authorization] header is
    replaced by any value, a valid user token included. The gate takes no
    [Runtime]: it cannot call [jwt.verify]. *)
Theorem admin_gate_is_header_only (handler : request -> outcome) (req : request) :
  headers req !! "x-admin-request" <> Some TRUE ->
  admin_router handler req = forbidden_403
  /\ forall authorization : option string,
       admin_router handler (set_header "authorization" authorization req)
       = forbidden_403.
Proof.
  intros Hadm.
  assert (Hgate : forall r : request,
             headers r !! "x-admin-request" = headers req !! "x-admin-request" ->
             admin_router handler r = forbidden_403).
  { intros r Hr. unfold admin_router, staticAdminMiddleware.
    rewrite Hr, bool_decide_eq_false_2 by done. reflexivity. }
  split; [by apply Hgate|].
  intros [v|]; apply Hgate; simpl.
  - by rewrite lookup_insert_ne.
  - by rewrite lookup_delete_ne.
Qed.

Lemma admin_gate_is_header_only_witness :
  headers alice_request !! "x-admin-request" <> Some TRUE
  /\ (admin_router (@admin_user_route sample_runtime sample_users) alice_request
      = forbidden_403
      /\ forall authorization : option string,
           admin_router (@admin_user_route sample_runtime sample_users)
             (set_header "authorization" authorization alice_request)
           = forbidden_403).
Proof.
  assert (H : headers alice_request !! "x-admin-request" <> Some TRUE)
    by (vm_compute; discriminate).
  split; [exact H|].
  exact (admin_gate_is_header_only
           (@admin_user_route sample_runtime sample_users) alice_request H).
Defined.

(** C5. A request with no [Authorization] header and without the admin
    header set to ["true"] is answered 401 by the access gate, for every
    [jwt.verify]: the answer does not depend on what verification would
    return, so none is attempted. *)
Theorem no_credentials_rejected (rt : Runtime) (req : request) :
  header req "Authorization" = None ->
  header req "X-Admin-Request" <> Some TRUE ->
  authMiddleware req = denied_401
  /\ forall rt' : Runtime, @authMiddleware rt' req = denied_401.
Proof.
  intros Hauth Hadm.
  assert (H : forall r : Runtime, @authMiddleware r req = denied_401).
  { intros r. apply authMiddleware_no_token; [done|].
    by rewrite bearer_token_absent. }
  split; [apply H | exact H].
Qed.

Lemma no_credentials_rejected_witness :
  header bare_request "Authorization" = None
  /\ header bare_request "X-Admin-Request" <> Some TRUE
  /\ (@authMiddleware sample_runtime bare_request = denied_401
      /\ forall rt' : Runtime, @authMiddleware rt' bare_request = denied_401).
Proof.
  assert (H1 : header bare_request "Authorization" = None) by reflexivity.
  assert (H2 : header bare_request "X-Admin-Request" <> Some TRUE)
    by (vm_compute; discriminate).
  split; [exact H1|]. split; [exact H2|].
  exact (no_credentials_rejected sample_runtime bare_request H1 H2).
Defined.

(** An [Authorization] header from which [split(" ")[1]] extracts nothing,
    or the empty string, is treated like an absent one. *)
Example no_token_after_scheme :
  @authMiddleware sample_runtime
    (with_headers {[ "authorization" := "Bearer" ]} bare_request) = denied_401
  /\ @authMiddleware sample_runtime
       (with_headers {[ "authorization" := "Bearer " ]} bare_request) = denied_401.
Proof. split; reflexivity. Qed.

(** C6. Two token-bearing requests whose tokens [jwt.verify] refuses, one
    for its signature ([JsonWebTokenError]) and one for its age
    ([TokenExpiredError]), or for any other two reasons, get the same
    answer from the access gate: status 401 with the message
    "Token is not valid". *)
Theorem refusals_are_indistinguishable (rt : Runtime) (req1 req2 : request)
    (t1 t2 : string) (e1 e2 : jwt_error) :
  header req1 "X-Admin-Request" <> Some TRUE ->
  header req2 "X-Admin-Request" <> Some TRUE ->
  bearer_token req1 = Some t1 -> t1 <> "" -> jwt_verify t1 = inl e1 ->
  bearer_token req2 = Some t2 -> t2 <> "" -> jwt_verify t2 = inl e2 ->
  authMiddleware req1 = invalid_401 /\ authMiddleware req2 = invalid_401
  /\ answer (authMiddleware req1) = answer (authMiddleware req2).
Proof.
  intros Ha1 Ha2 Ht1 Hn1 Hv1 Ht2 Hn2 Hv2.
  rewrite (authMiddleware_token req1 t1), (authMiddleware_token req2 t2) by done.
  rewrite Hv1, Hv2. done.
Qed.

Lemma refusals_are_indistinguishable_witness :
  @jwt_verify sample_runtime "forged.jwt" = inl (JsonWebTokenError "invalid signature")
  /\ @jwt_verify sample_runtime "stale.jwt" = inl (TokenExpiredError 900)
  /\ (@authMiddleware sample_runtime forged_request = invalid_401
      /\ @authMiddleware sample_runtime stale_request = invalid_401
      /\ answer (@authMiddleware sample_runtime forged_request)
         = answer (@authMiddleware sample_runtime stale_request)).
Proof.
  split; [reflexivity|]. split; [reflexivity|].
  apply (refusals_are_indistinguishable sample_runtime forged_request stale_request
           "forged.jwt" "stale.jwt"
           (JsonWebTokenError "invalid signature") (TokenExpiredError 900));
    try reflexivity; vm_compute; discriminate.
Defined.

(** C10. A request admitted through the admin header carries no identity
    afterwards: the gate passes it on unchanged, so [req.user] is still
    absent, and the search handler, which reads [req.user.userId], throws a
    TypeError that the error handler answers with 500. An identity is only
    ever attached on the bearer-token path, from what [jwt.verify] returned. *)
Theorem admin_bypass_attaches_no_identity (rt : Runtime) (db : list user_doc)
    (req : request) :
  (header req "X-Admin-Request" = Some TRUE -> user req = None ->
   exists req',
     authMiddleware req = Next req' /\ user req' = None
     /\ search_route db req = NextErr (TypeError "userId")
     /\ status <$> answer (search_route db req) = Some 500)
  /\ (forall req' decoded,
        user req = None ->
        authMiddleware req = Next req' -> user req' = Some decoded ->
        header req "X-Admin-Request" <> Some TRUE
        /\ exists token, bearer_token req = Some token
                         /\ jwt_verify token = inr decoded).
Proof.
  split.
  - intros Hadm Huser. exists req.
    assert (Hgate : authMiddleware req = Next req)
      by (unfold authMiddleware; by rewrite decide_True).
    assert (Hsearch : search_route db req = NextErr (TypeError "userId")).
    { unfold search_route. rewrite Hgate. simpl.
      unfold search_handler, search_filter_of. by rewrite Huser. }
    by rewrite Hsearch.
  - intros req' decoded Huser. unfold authMiddleware.
    destruct (decide _) as [Hadm|Hadm].
    + intros [= <-] Hu. congruence.
    + destruct (bearer_token req) as [[|c r]|]; try discriminate.
      destruct (jwt_verify (String c r)) as [err|p] eqn:Hv; try discriminate.
      intros [= <-]. simpl. intros [= ->].
      split; [done|]. by exists (String c r).
Qed.

Lemma admin_bypass_attaches_no_identity_witness :
  header admin_request "X-Admin-Request" = Some TRUE
  /\ user admin_request = None
  /\ exists req',
       @authMiddleware sample_runtime admin_request = Next req'
       /\ user req' = None
       /\ @search_route sample_runtime sample_users admin_request
          = NextErr (TypeError "userId")
       /\ status <$> answer (@search_route sample_runtime sample_users admin_request)
          = Some 500.
Proof.
  split; [reflexivity|]. split; [reflexivity|].
  apply (admin_bypass_attaches_no_identity sample_runtime sample_users admin_request);
    reflexivity.
Defined.

(** On the bearer-token path the identity is the decoded payload. *)
Example alice_is_identified :
  @authMiddleware sample_runtime alice_request = Next (set_user alice alice_request).
Proof. reflexivity. Qed.

(** ** Upload admission *)



Example extension_examples :
  match_image_extension "Photo.JPG" = true
  /\ match_image_extension "scan.jpeg" = true
  /\ match_image_extension "notes.txt" = false
  /\ match_image_extension "photo.png.exe" = false
  /\ match_image_extension "png" = false.
Proof. repeat split; reflexivity. Qed.

Section UploadProperties.
Context `{pf : Platform}.


Lemma uploadMiddleware_admits e req w f :
  multipart req = Some f -> part_fieldname f = "profileImage" ->
  fileValidationError req = None ->
  match_image_extension (part_originalname f) = true ->
  part_size f < fileSize_limit ->
  uploadMiddleware e req w
  = {| out := Next (set_file (stored_at "uploads/profile-pics" e f) req);
       store := write_file (path (stored_at "uploads/profile-pics" e f)) w;
       calls := [Write (path (stored_at "uploads/profile-pics" e f))] |}.
Proof.
  intros Hm Hf Hv Hext Hsize.
  unfold uploadMiddleware, upload, multer_single, fileFilter.
  rewrite Hm, Hf, Hext. simpl.
  destruct (fileSize_limit <=? part_size f) eqn:Hlt; [lia|].
  simpl. rewrite Hv. reflexivity.
Qed.


Lemma register_upload_admits e req w f :
  multipart req = Some f -> part_fieldname f = "profileImage" ->
  startsWith "image/" (part_mimetype f) = true ->
  part_size f < 5 * 1024 * 1024 ->
  register_upload e req w
  = {| out := Next (set_file (stored_at "uploads/profile-pictures" e f) req);
       store := write_file (path (stored_at "uploads/profile-pictures" e f)) w;
       calls := [Write (path (stored_at "uploads/profile-pictures" e f))] |}.
Proof.
  intros Hm Hf Hmime Hsize.
  unfold register_upload, uploadProfilePic, multer_single, register_fileFilter.
  rewrite Hm, Hf, Hmime. simpl.
  destruct (5 * 1024 * 1024 <=? part_size f) eqn:Hlt; [lia|].
  reflexivity.
Qed.

End UploadProperties.


(** The other way round: an image named [me.png] sent with a generic type
    is refused by the registration pipeline. *)
Example registration_refuses_untyped_image :
  @register_upload sample_platform sample_env
    (with_multipart (picture_part "me.png" "application/octet-stream" 2048)
                    bare_request) sample_world
  = pure (reply 400 (FieldErrors "Not an image! Please upload only images."
                       [("profileImage", "Not an image! Please upload only images.")]))
         sample_world.
Proof. reflexivity. Qed.



(** ** Rollback of a stored upload *)


Lemma write_file_adds (p : string) (w : world) : p ∈ files (write_file p w).
Proof. simpl. apply elem_of_union_l. by apply elem_of_singleton. Qed.

Lemma chain_pure_next (req : request) (w : world)
    (k : request -> world -> result) :
  chain (pure (Next req) w) k = k req w.
Proof. unfold chain. simpl. by destruct (k req w). Qed.

Lemma chain_next (r : result) (req : request) (k : request -> world -> result) :
  out r = Next req ->
  chain r k = {| out := out (k req (store r));
                 store := store (k req (store r));
                 calls := calls r ++ calls (k req (store r)) |}.
Proof. intros H. unfold chain. by rewrite H. Qed.

Section RollbackProperties.
Context `{rt : Runtime} `{pf : Platform}.

(** The gate hands on the request itself or the request with an identity;
    the multipart body is the same. *)
Lemma authMiddleware_next req req1 :
  authMiddleware req = Next req1 ->
  req1 = req \/ exists decoded, req1 = set_user decoded req.
Proof.
  unfold authMiddleware.
  destruct (decide _); [intros [= <-]; by left|].
  destruct (bearer_token req) as [[|c r]|]; try discriminate.
  destruct (jwt_verify _) as [err|decoded]; try discriminate.
  intros [= <-]. right. by exists decoded.
Qed.

(** The handler of [POST /me/upload-picture] makes no [fs] call and leaves
    the upload directories as they are, however it ends. *)
Lemma upload_picture_handler_keeps_files e req w :
  calls (upload_picture_handler e req w) = []
  /\ files (store (upload_picture_handler e req w)) = files w.
Proof.
  unfold upload_picture_handler.
  destruct (file req) as [f|]; [|done].
  destruct (bool_decide _).
  - destruct (body req !! "userId") as [[|c r]|]; try done.
    destruct (findByIdAndUpdate_picture _ _ _ _) as [err|[[u db]|]]; try done.
    by destruct (String.eqb _ _).
  - destruct (user req) as [[[|c r] ? ? ?]|]; try done.
    destruct (findByIdAndUpdate_picture _ _ _ _) as [err|[[u db]|]]; try done.
    by destruct (String.eqb _ _).
Qed.



End RollbackProperties.

(** C1. The code at three requests that carry [me.png] (image/png, 2048
    bytes) and fail after the file was written. The comments of
    [POST /register] say that a file whose registration fails is deleted,
    and its conflict branch and its ValidationError guard do so; these three
    endings do not. (1) A registration that passes the look-up and loses the
    insert to a concurrent one (duplicate key, E11000): answered 500, the
    guard of the [catch] block unlinks for a ValidationError only. (2) A
    registration without the essential fields: answered 400 by an early
    return that unlinks nothing. (3) [POST /me/upload-picture] with a valid
    token whose account is gone: answered 404 by a handler that has no
    unlink at all. In each the only [fs] call is the write, and the file is
    in storage after the error answer. *)
Theorem failed_requests_leave_the_file :
  (out (@register_route sample_runtime sample_platform racing_env
          racing_registration sample_world)
   = reply 500 (Failure "Server error during registration.")
   /\ calls (@register_route sample_runtime sample_platform racing_env
               racing_registration sample_world)
      = [Write "uploads/profile-pictures/profileImage-1700000000000-123456789.png"]
   /\ ~ rolled_back (@register_route sample_runtime sample_platform racing_env
                       racing_registration sample_world))
  /\ (out (@register_route sample_runtime sample_platform sample_env
             alice_upload sample_world)
      = reply 400 (Failure "Missing essential registration fields.")
      /\ calls (@register_route sample_runtime sample_platform sample_env
                  alice_upload sample_world)
         = [Write "uploads/profile-pictures/profileImage-1700000000000-123456789.png"]
      /\ ~ rolled_back (@register_route sample_runtime sample_platform sample_env
                          alice_upload sample_world))
  /\ (out (@upload_picture_route sample_runtime sample_platform sample_env
             alice_upload orphan_world)
      = reply 404 (Message "User not found for picture update")
      /\ calls (@upload_picture_route sample_runtime sample_platform sample_env
                  alice_upload orphan_world)
         = [Write "uploads/profile-pics/profileImage-1700000000000-123456789.png"]
      /\ ~ rolled_back (@upload_picture_route sample_runtime sample_platform
                          sample_env alice_upload orphan_world)).
Proof.
  split; [|split].
  - split; [reflexivity|]. split; [reflexivity|].
    intros H.
    apply (H "uploads/profile-pictures/profileImage-1700000000000-123456789.png"
             {| status := 500; json := Failure "Server error during registration." |}).
    + left. reflexivity.
    + reflexivity.
    + simpl. lia.
    + apply (bool_decide_eq_true_1 _). vm_compute. reflexivity.
  - split; [reflexivity|]. split; [reflexivity|].
    intros H.
    apply (H "uploads/profile-pictures/profileImage-1700000000000-123456789.png"
             {| status := 400; json := Failure "Missing essential registration fields." |}).
    + left. reflexivity.
    + reflexivity.
    + simpl. lia.
    + apply (bool_decide_eq_true_1 _). vm_compute. reflexivity.
  - split; [reflexivity|]. split; [reflexivity|].
    intros H.
    apply (H "uploads/profile-pics/profileImage-1700000000000-123456789.png"
             {| status := 404; json := Message "User not found for picture update" |}).
    + left. reflexivity.
    + reflexivity.
    + simpl. lia.
    + apply (bool_decide_eq_true_1 _). vm_compute. reflexivity.
Qed.



(** [POST /me/upload-picture] has no such step: once the gate and the
    upload middleware let a part smaller than 5 MiB through, the written
    file stays in storage however the handler ends (404, 400, 500 or
    success). *)
Lemma upload_picture_keeps_the_file (rt : Runtime) (pf : Platform)
    (e : env) (req : request) (w : world) (f : file_part) :
  multipart req = Some f -> part_fieldname f = "profileImage" ->
  part_size f < fileSize_limit ->
  match_image_extension (part_originalname f) = true ->
  fileValidationError req = None ->
  (exists req1, authMiddleware req = Next req1) ->
  calls (upload_picture_route e req w)
  = [Write (path (stored_at "uploads/profile-pics" e f))]
  /\ (path (stored_at "uploads/profile-pics" e f)
        ∈ files (store (upload_picture_route e req w))).
Proof.
  intros Hm Hf Hsize Hext Hv [req1 Hgate].
  unfold upload_picture_route. rewrite Hgate.
  assert (Hm1 : multipart req1 = Some f /\ fileValidationError req1 = None).
  { destruct (authMiddleware_next req req1 Hgate) as [->|[decoded ->]]; done. }
  destruct Hm1 as [Hm1 Hv1].
  rewrite chain_pure_next, (uploadMiddleware_admits e req1 w f) by done.
  rewrite (chain_next _ (set_file (stored_at "uploads/profile-pics" e f) req1))
    by reflexivity.
  cbn [out store calls].
  match goal with
  | |- context [upload_picture_handler e ?r ?v] =>
      destruct (upload_picture_handler_keeps_files e r v) as [-> ->]
  end.
  split; [done | apply write_file_adds].
Qed.

Lemma upload_picture_keeps_the_file_witness :
  calls (@upload_picture_route sample_runtime sample_platform sample_env
           alice_upload orphan_world)
  = [Write (path (@stored_at sample_platform "uploads/profile-pics" sample_env
                    (picture_part "me.png" "image/png" 2048)))]
  /\ (path (@stored_at sample_platform "uploads/profile-pics" sample_env
              (picture_part "me.png" "image/png" 2048))
        ∈ files (store (@upload_picture_route sample_runtime sample_platform
                          sample_env alice_upload orphan_world))).
Proof.
  apply (upload_picture_keeps_the_file sample_runtime sample_platform sample_env
           alice_upload orphan_world (picture_part "me.png" "image/png" 2048)).
  - reflexivity.
  - reflexivity.
  - vm_compute. reflexivity.
  - reflexivity.
  - reflexivity.
  - eexists. reflexivity.
Defined.

Example register_conflict_message :
  out (@register_route sample_runtime sample_platform sample_env
         conflicting_registration sample_world)
  = reply 400 (Failure "An account with this email already exists.").
Proof. reflexivity. Qed.

(** Without a fault the racing registration succeeds and the new document
    refers to the stored file. *)
Example register_success :
  exists token u,
    out (@register_route sample_runtime sample_platform sample_env
           racing_registration sample_world)
    = reply 201 (Registered token u)
    /\ profilePicture u
       = "/uploads/profile-pictures/profileImage-1700000000000-123456789.png"
    /\ password u = None.
Proof. do 2 eexists. split; [reflexivity|]. split; reflexivity. Qed.

(** ** Profile queries *)

Lemma insert_newest_perm (u : user_doc) (l : list user_doc) :
  Permutation (insert_newest u l) (u :: l).
Proof.
  induction l as [|v r IH]; simpl; [done|].
  destruct (createdAt v <=? createdAt u); [done|].
  rewrite IH. apply perm_swap.
Qed.

Lemma newest_first_perm (l : list user_doc) : Permutation (newest_first l) l.
Proof.
  induction l as [|u l IH]; simpl; [done|].
  rewrite insert_newest_perm. by constructor.
Qed.

Lemma insert_newest_sorted (u : user_doc) (l : list user_doc) :
  StronglySorted not_older l -> StronglySorted not_older (insert_newest u l).
Proof.
  induction 1 as [|v r Hsorted IH Hall]; simpl.
  - repeat constructor.
  - destruct (createdAt v <=? createdAt u) eqn:Hle.
    + apply Z.leb_le in Hle. constructor; [by constructor|].
      constructor; [exact Hle|].
      eapply List.Forall_impl; [|exact Hall].
      unfold not_older. intros; lia.
    + apply Z.leb_gt in Hle. constructor; [exact IH|].
      rewrite insert_newest_perm. constructor; [|exact Hall].
      unfold not_older. lia.
Qed.

Lemma newest_first_sorted (l : list user_doc) :
  StronglySorted not_older (newest_first l).
Proof.
  induction l as [|u l IH]; simpl; [constructor|].
  by apply insert_newest_sorted.
Qed.

(** Equal instants keep the insertion order. *)
Example newest_first_sample :
  map _id (newest_first sample_users)
  = ["65f0000000000000000000b2"; "65f0000000000000000000b3";
     "65f0000000000000000000a1"].
Proof. reflexivity. Qed.

Lemma find_page_window (q : user_doc -> bool) (p l : Z) (db : list user_doc) :
  1 <= p -> 1 <= l ->
  find_page q (pred_times (JInt p) (JInt l)) (JInt l) db = inr (page_window p l q db).
Proof.
  intros Hp Hl. unfold find_page, pred_times, page_window.
  destruct ((p - 1) * l <? 0) eqn:Hneg; [apply Z.ltb_lt in Hneg; nia|].
  destruct (l =? 0) eqn:Hz; [apply Z.eqb_eq in Hz; lia|].
  by rewrite Z.abs_eq by lia.
Qed.

Lemma find_page_In (q : user_doc -> bool) (s l : jsnum) (db found : list user_doc)
    (u : user_doc) :
  find_page q s l db = inr found -> In u found -> q u = true /\ In u db.
Proof.
  unfold find_page. destruct s as [s| |]; try discriminate.
  destruct l as [l| |]; try discriminate.
  destruct (s <? 0); [discriminate|].
  intros [= <-] Hin.
  assert (Hsorted : In u (newest_first (List.filter q db))).
  { apply list_elem_of_In. apply list_elem_of_In in Hin.
    destruct (l =? 0).
    - by eapply subseteq_drop.
    - by eapply subseteq_drop, subseteq_take. }
  apply (Permutation_in _ (newest_first_perm _)), filter_In in Hsorted.
  tauto.
Qed.

Lemma ceil_div_spec (count l : Z) :
  0 <= count -> 1 <= l ->
  exists t, ceil_div count (JInt l) = JInt t /\ (t - 1) * l < count <= t * l.
Proof.
  intros Hc Hl. exists (- (- count / l)). split.
  - unfold ceil_div. destruct l; (done || lia).
  - pose proof (Z.div_mod (- count) l ltac:(lia)).
    pose proof (Z.mod_pos_bound (- count) l ltac:(lia)).
    nia.
Qed.

Lemma page_window_length (p l : Z) (q : user_doc -> bool) (db : list user_doc) :
  0 <= l -> Z.of_nat (length (page_window p l q db)) <= l.
Proof.
  intros Hl. unfold page_window. rewrite length_take. lia.
Qed.

Lemma countDocuments_nonneg (q : user_doc -> bool) (db : list user_doc) :
  0 <= countDocuments q db.
Proof. unfold countDocuments. lia. Qed.

Section QueryProperties.
Context `{rt : Runtime}.

Lemma search_filter_of_caller req f :
  search_filter_of req = inr f ->
  exists caller, user req = Some caller /\ ne_id f = userId caller.
Proof.
  unfold search_filter_of.
  destruct (user req) as [caller|]; [|discriminate].
  destruct (regex_param _) as [?|loc]; [discriminate|].
  destruct (regex_param _) as [?|rel]; [discriminate|].
  intros [= <-]. by exists caller.
Qed.

Lemma matches_ne_id f u : matches f u = true -> _id u <> ne_id f.
Proof.
  unfold matches. rewrite !andb_true_iff, negb_true_iff.
  intros [[[Hne _] _] _]. by apply String.eqb_neq.
Qed.

(** What the search handler answers, when it answers with results. *)
Lemma search_handler_results db req res :
  search_handler db req = Respond res ->
  exists f found,
    search_filter_of req = inr f
    /\ find_page (matches f)
         (pred_times (int_param req "page" 1) (int_param req "limit" 10))
         (int_param req "limit" 10) db = inr found
    /\ res = {| status := 200;
                json := SearchResults (map (select MinusPassword) found)
                          (countDocuments (matches f) db)
                          (int_param req "page" 1) (int_param req "limit" 10)
                          (ceil_div (countDocuments (matches f) db)
                                    (int_param req "limit" 10)) |}.
Proof.
  unfold search_handler.
  destruct (search_filter_of req) as [err|f]; [discriminate|].
  destruct (negb _); [discriminate|].
  destruct (find_page _ _ _ _) as [err|found] eqn:Hfind; [discriminate|].
  intros [= <-]. by exists f, found.
Qed.

Lemma search_pagination db req f p l :
  search_filter_of req = inr f -> isObjectId (ne_id f) = true ->
  int_param req "page" 1 = JInt p -> int_param req "limit" 10 = JInt l ->
  1 <= p -> 1 <= l ->
  search_handler db req
  = reply 200 (SearchResults (map (select MinusPassword) (page_window p l (matches f) db))
                 (countDocuments (matches f) db) (JInt p) (JInt l)
                 (ceil_div (countDocuments (matches f) db) (JInt l))).
Proof.
  intros Hf Hid Hpage Hlimit Hp Hl. unfold search_handler.
  rewrite Hf, Hid, Hpage, Hlimit. simpl negb. cbv iota.
  by rewrite find_page_window.
Qed.

Lemma admin_pagination cal db req p l :
  int_param_or req "page" 1 = JInt p -> int_param_or req "limit" 9 = JInt l ->
  1 <= p -> 1 <= l ->
  admin_users_handler cal db req
  = reply 200
      (AdminUsers
         (map (select Unselected)
            (page_window p l
               (admin_query cal (or_else (query req !! "filter") "recent")) db))
         (countDocuments (admin_query cal (or_else (query req !! "filter") "recent")) db)
         (ceil_div
            (countDocuments (admin_query cal (or_else (query req !! "filter") "recent")) db)
            (JInt l))
         (JInt p) (JInt l) (or_else (query req !! "filter") "recent")).
Proof.
  intros Hpage Hlimit Hp Hl. unfold admin_users_handler.
  rewrite Hpage, Hlimit. cbv zeta.
  by rewrite find_page_window.
Qed.

End QueryProperties.

(** C7. Whatever the search parameters are, when the search route answers a
    caller whom the gate identified by a token, no document in the results
    has the caller's [userId] as its [_id]. (That the route does answer is
    [search_pagination].) *)
Theorem search_excludes_the_caller (rt : Runtime) (db : list user_doc)
    (req req1 : request) (caller : token_payload) (res : response) :
  authMiddleware req = Next req1 -> user req1 = Some caller ->
  search_route db req = Respond res ->
  forall u, In u (payload_docs (json res)) -> _id u <> userId caller.
Proof.
  intros Hgate Huser Hres u Hin.
  unfold search_route in Hres. rewrite Hgate in Hres. simpl in Hres.
  apply search_handler_results in Hres as (f & found & Hf & Hfind & ->).
  apply search_filter_of_caller in Hf as (caller' & Hu & Hne).
  assert (caller' = caller) as -> by congruence.
  simpl in Hin. apply in_map_iff in Hin as (v & <- & Hv).
  destruct (find_page_In _ _ _ _ _ _ Hfind Hv) as [Hmatch _].
  apply matches_ne_id in Hmatch. by rewrite <- Hne.
Qed.

Lemma search_excludes_the_caller_witness :
  @authMiddleware sample_runtime alice_request = Next (set_user alice alice_request)
  /\ user (set_user alice alice_request) = Some alice
  /\ (exists res,
        @search_route sample_runtime sample_users alice_request = Respond res
        /\ map _id (payload_docs (json res))
           = ["65f0000000000000000000b2"; "65f0000000000000000000b3"]
        /\ forall u, In u (payload_docs (json res)) -> _id u <> userId alice).
Proof.
  split; [reflexivity|]. split; [reflexivity|].
  eexists. split; [reflexivity|]. split; [reflexivity|].
  apply (search_excludes_the_caller sample_runtime sample_users alice_request
           (set_user alice alice_request) alice); reflexivity.
Defined.

Lemma page_window_page_of (p l : Z) (q : user_doc -> bool) (db : list user_doc) :
  page_of p l q db (page_window p l q db).
Proof.
  exists (newest_first (List.filter q db)).
  split; [apply newest_first_perm|]. split; [apply newest_first_sorted|]. done.
Qed.

Lemma filter_all {A} (l : list A) : List.filter (fun _ => true) l = l.
Proof. induction l as [|x l IH]; simpl; [done | by rewrite IH]. Qed.

(** C8. For a page number [1 <= p] and a page size [1 <= l] whose product
    is a safe integer: the search route and the admin listing answer 200
    with the matching documents of the page, that is, of the matching
    documents in a newest-first order, those after the first [(p - 1) * l],
    cut after [l], so at most [l]; with the number of all documents that
    match the same filter as the total; and with a [totalPages] that is the
    least integer not below [total / l]. A missing [page] is [1]; a missing
    [limit] is [10] for the search and [9] for the admin listing. The
    public listing answers with the same page and count over all documents;
    it reports no page count. The order among documents created at the same
    instant is left open. *)
Theorem pagination_contract (rt : Runtime) (cal : calendar)
    (db : list user_doc) (req : request) (p l : Z) :
  1 <= p -> 1 <= l -> p * l <= MAX_SAFE_INTEGER ->
  (forall req1 f,
      authMiddleware req = Next req1 ->
      search_filter_of req1 = inr f -> isObjectId (ne_id f) = true ->
      int_param req1 "page" 1 = JInt p -> int_param req1 "limit" 10 = JInt l ->
      exists found totalPages,
        search_route db req
        = reply 200
            (SearchResults (map (select MinusPassword) found)
               (Z.of_nat (length (List.filter (matches f) db)))
               (JInt p) (JInt l) (JInt totalPages))
        /\ page_of p l (matches f) db found
        /\ Z.of_nat (length found) <= l
        /\ (totalPages - 1) * l
           < Z.of_nat (length (List.filter (matches f) db)) <= totalPages * l)
  /\ (int_param req "page" 1 = JInt p -> int_param req "limit" 10 = JInt l ->
      exists found,
        profiles_route db req
        = reply 200 (Profiles (Z.of_nat (length db))
                              (map (select MinusPassword) found))
        /\ page_of p l (fun _ => true) db found
        /\ Z.of_nat (length found) <= l)
  /\ (headers req !! "x-admin-request" = Some TRUE ->
      int_param_or req "page" 1 = JInt p -> int_param_or req "limit" 9 = JInt l ->
      exists found totalPages,
        admin_users_route cal db req
        = reply 200
            (AdminUsers (map (select Unselected) found)
               (Z.of_nat
                  (length
                     (List.filter
                        (admin_query cal (or_else (query req !! "filter") "recent"))
                        db)))
               (JInt totalPages) (JInt p) (JInt l)
               (or_else (query req !! "filter") "recent"))
        /\ page_of p l (admin_query cal (or_else (query req !! "filter") "recent"))
                   db found
        /\ Z.of_nat (length found) <= l
        /\ (totalPages - 1) * l
           < Z.of_nat
               (length
                  (List.filter
                     (admin_query cal (or_else (query req !! "filter") "recent")) db))
           <= totalPages * l)
  /\ (query req !! "page" = None ->
      int_param req "page" 1 = JInt 1 /\ int_param_or req "page" 1 = JInt 1)
  /\ (query req !! "limit" = None ->
      int_param req "limit" 10 = JInt 10 /\ int_param_or req "limit" 9 = JInt 9).
Proof.
  intros Hp Hl _. repeat apply conj.
  - intros req1 f Hgate Hf Hid Hpage Hlimit.
    destruct (ceil_div_spec (countDocuments (matches f) db) l
                (countDocuments_nonneg _ _) Hl) as (t & Ht & Hbounds).
    exists (page_window p l (matches f) db), t.
    split; [|split; [apply page_window_page_of|
             split; [apply page_window_length; lia | exact Hbounds]]].
    unfold search_route. rewrite Hgate. simpl.
    rewrite (search_pagination db req1 f p l) by done. by rewrite Ht.
  - intros Hpage Hlimit. exists (page_window p l (fun _ => true) db).
    split; [|split; [apply page_window_page_of | apply page_window_length; lia]].
    unfold profiles_route. rewrite Hpage, Hlimit. cbv zeta.
    rewrite find_page_window by done.
    unfold countDocuments. by rewrite filter_all.
  - intros Hadm Hpage Hlimit.
    set (q := admin_query cal (or_else (query req !! "filter") "recent")).
    destruct (ceil_div_spec (countDocuments q db) l
                (countDocuments_nonneg _ _) Hl) as (t & Ht & Hbounds).
    exists (page_window p l q db), t.
    split; [|split; [apply page_window_page_of|
             split; [apply page_window_length; lia | exact Hbounds]]].
    unfold admin_users_route, admin_router, staticAdminMiddleware.
    rewrite Hadm. simpl.
    rewrite (admin_pagination cal db req p l) by done. fold q. by rewrite Ht.
  - unfold int_param, int_param_or. by intros ->.
  - unfold int_param, int_param_or. by intros ->.
Qed.

Lemma pagination_contract_witness :
  (exists f found totalPages,
     @search_filter_of sample_runtime (set_user alice alice_page_2) = inr f
     /\ @search_route sample_runtime sample_users alice_page_2
        = reply 200
            (SearchResults (map (select MinusPassword) found)
               (Z.of_nat (length (List.filter (@matches sample_runtime f) sample_users)))
               (JInt 2) (JInt 1) (JInt totalPages))
     /\ page_of 2 1 (@matches sample_runtime f) sample_users found
     /\ Z.of_nat (length found) <= 1
     /\ (totalPages - 1) * 1
        < Z.of_nat (length (List.filter (@matches sample_runtime f) sample_users))
        <= totalPages * 1)
  /\ (exists found totalPages,
        admin_users_route sample_calendar sample_users admin_page_2
        = reply 200
            (AdminUsers (map (select Unselected) found)
               (Z.of_nat
                  (length (List.filter (admin_query sample_calendar "recent")
                                       sample_users)))
               (JInt totalPages) (JInt 2) (JInt 2) "recent")
        /\ page_of 2 2 (admin_query sample_calendar "recent") sample_users found
        /\ Z.of_nat (length found) <= 2
        /\ (totalPages - 1) * 2
           < Z.of_nat
               (length (List.filter (admin_query sample_calendar "recent")
                                    sample_users))
           <= totalPages * 2).
Proof.
  destruct (pagination_contract sample_runtime sample_calendar sample_users
              alice_page_2 2 1 ltac:(lia) ltac:(lia)
              ltac:(vm_compute; discriminate)) as (Hsearch & _).
  destruct (pagination_contract sample_runtime sample_calendar sample_users
              admin_page_2 2 2 ltac:(lia) ltac:(lia)
              ltac:(vm_compute; discriminate)) as (_ & _ & Hadmin & _).
  split.
  - eexists.
    edestruct (Hsearch (set_user alice alice_page_2)) as (found & t & H);
      [reflexivity | reflexivity | reflexivity | reflexivity | reflexivity |].
    exists found, t. split; [reflexivity | exact H].
  - apply Hadmin; reflexivity.
Defined.

(** The second page of size one of alice's search is the older of the two
    other users; the admin's second page of size two is the oldest user. *)
Example pagination_sample :
  (exists total pages,
     @search_route sample_runtime sample_users alice_page_2
     = reply 200
         (SearchResults
            [with_password None
               (sample_doc "65f0000000000000000000b3" "chitra@x.com" "9000000003" 200)]
            total (JInt 2) (JInt 1) pages)
     /\ total = 2 /\ pages = JInt 2)
  /\ exists found,
       admin_users_route sample_calendar sample_users admin_page_2
       = reply 200 (AdminUsers found 3 (JInt 2) (JInt 2) (JInt 2) "recent")
       /\ map _id found = ["65f0000000000000000000a1"].
Proof.
  split.
  - do 2 eexists. split; [reflexivity|]. split; reflexivity.
  - eexists. split; reflexivity.
Qed.

(** Outside the contract: a limit of [0] is no limit for the store, and the
    page count is not a number any more. *)
Example search_limit_zero :
  exists found total,
    @search_route sample_runtime sample_users
      (with_query {[ "limit" := "0" ]} alice_request)
    = reply 200 (SearchResults found total (JInt 1) (JInt 0) (JInf false))
    /\ length found = 2%nat.
Proof. do 2 eexists. split; reflexivity. Qed.

(** ** The password never leaves the store *)

Lemma select_hides_password (s : selection) (u : user_doc) :
  s <> PlusPassword -> password (select s u) = None.
Proof. by destruct s. Qed.

Lemma password_free_message (code : Z) (p : payload) :
  payload_docs p = [] -> password_free (reply code p).
Proof. intros Hp res [= <-] u. simpl. by rewrite Hp. Qed.

Lemma password_free_error (err : js_error) : password_free (NextErr err).
Proof. by intros res [= <-] u. Qed.

Lemma password_free_selected (code : Z) (p : payload) (s : selection)
    (found : list user_doc) :
  s <> PlusPassword -> payload_docs p = map (select s) found ->
  password_free (reply code p).
Proof.
  intros Hs Hp res [= <-] u. simpl. rewrite Hp.
  intros (v & <- & _)%in_map_iff. by apply select_hides_password.
Qed.

Lemma password_free_one (code : Z) (p : payload) (u : user_doc) :
  password u = None -> payload_docs p = [u] -> password_free (reply code p).
Proof.
  intros Hu Hp res [= <-] v. simpl. rewrite Hp.
  by intros [<-|[]].
Qed.

Create HintDb slvnk.
#[local] Hint Resolve password_free_error : slvnk.
#[local] Hint Extern 1 (password_free (reply _ (Message _))) =>
  by apply password_free_message : slvnk.
#[local] Hint Extern 1 (password_free (reply _ (Failure _))) =>
  by apply password_free_message : slvnk.

Section PasswordProperties.
Context `{rt : Runtime}.

Lemma password_free_gated req (k : request -> outcome) :
  (forall r, password_free (k r)) ->
  password_free (and_then (authMiddleware req) k).
Proof.
  intros Hk. unfold authMiddleware.
  destruct (decide _); [apply Hk|].
  destruct (bearer_token req) as [[|c r]|]; simpl; auto with slvnk.
  destruct (jwt_verify _); simpl; auto with slvnk.
Qed.

Lemma password_free_admin req (k : request -> outcome) :
  (forall r, password_free (k r)) -> password_free (admin_router k req).
Proof.
  intros Hk. unfold admin_router, staticAdminMiddleware.
  destruct (negb _); simpl; auto with slvnk.
Qed.

Lemma password_free_search db req : password_free (search_handler db req).
Proof.
  unfold search_handler.
  destruct (search_filter_of req); auto with slvnk.
  destruct (negb _); auto with slvnk.
  destruct (find_page _ _ _ _) as [err|found]; auto with slvnk.
  by apply (password_free_selected _ _ MinusPassword found).
Qed.

Lemma password_free_profiles db req : password_free (profiles_route db req).
Proof.
  unfold profiles_route.
  destruct (find_page _ _ _ _) as [err|found]; auto with slvnk.
  by apply (password_free_selected _ _ MinusPassword found).
Qed.

Lemma password_free_admin_users cal db req :
  password_free (admin_users_handler cal db req).
Proof.
  unfold admin_users_handler.
  destruct (find_page _ _ _ _) as [err|found]; auto with slvnk.
  by apply (password_free_selected _ _ Unselected found).
Qed.

End PasswordProperties.

(** C9. Whatever the search route, the public listing, the look-ups by id
    ([/me], [/:id]), the admin listing and the admin look-up answer, no user
    document in the body carries a [password]: every query either selects
    ["-password"] or runs without a selection under the schema's
    [select: false], and the admin look-up deletes the field again. *)
Theorem read_payloads_carry_no_password (rt : Runtime) (cal : calendar)
    (db : list user_doc) (req : request) (res : response) :
  answer (search_route db req) = Some res
  \/ answer (profiles_route db req) = Some res
  \/ answer (profile_by_id_route db req) = Some res
  \/ answer (me_route db req) = Some res
  \/ answer (admin_users_route cal db req) = Some res
  \/ answer (admin_user_route db req) = Some res ->
  forall u, In u (payload_docs (json res)) -> password u = None.
Proof.
  intros Hres.
  destruct Hres as [H|[H|[H|[H|[H|H]]]]]; revert res H.
  - apply password_free_gated. intros r. apply password_free_search.
  - apply password_free_profiles.
  - apply password_free_gated. intros r.
    destruct (findById _ db) as [err|[u|]]; auto with slvnk.
    + destruct (String.eqb _ _); auto with slvnk.
    + by apply (password_free_one _ _ (with_password None u)).
  - apply password_free_gated. intros r.
    destruct (user r); auto with slvnk.
    destruct (findById _ db) as [err|[u|]]; auto with slvnk.
    by apply (password_free_one _ _ (with_password None u)).
  - apply password_free_admin. intros r. apply password_free_admin_users.
  - apply password_free_admin. intros r.
    destruct (findById _ db) as [err|[u|]]; auto with slvnk.
    + destruct (String.eqb _ _); auto with slvnk.
    + by apply (password_free_one _ _ (with_password None u)).
Qed.

Lemma read_payloads_carry_no_password_witness :
  exists res,
    answer (@search_route sample_runtime sample_users alice_request) = Some res
    /\ length (payload_docs (json res)) = 2%nat
    /\ Forall (fun u => password u = Some "$2a$10$stored-hash") sample_users
    /\ forall u, In u (payload_docs (json res)) -> password u = None.
Proof.
  eexists. split; [reflexivity|]. split; [reflexivity|].
  split; [repeat constructor|].
  apply (read_payloads_carry_no_password sample_runtime sample_calendar
           sample_users alice_request).
  left. reflexivity.
Defined.

(** The admin listing runs [find] without a selection; the schema keeps the
    password out all the same. *)
Example admin_listing_hides_password :
  exists found total pages,
    admin_users_route sample_calendar sample_users admin_request
    = reply 200 (AdminUsers found total pages (JInt 1) (JInt 9) "recent")
    /\ map password found = [None; None; None].
Proof. do 3 eexists. split; reflexivity. Qed.


(** * Further properties of the routes *)

(** ** The access gate in front of the profile routes *)

Lemma append_empty (s : string) : s +:+ "" = s.
Proof.
  induction s as [|c s IH]; [done|].
  change (String c (s +:+ "") = String c s). by rewrite IH.
Qed.

Lemma split_on_no_sep (sep : ascii) (s : string) :
  has_char sep s = false -> split_on sep s = [s].
Proof.
  induction s as [|c s IH]; simpl; [done|].
  rewrite orb_false_iff. intros [Hc Hs].
  rewrite Hc, IH by done. reflexivity.
Qed.

Lemma split_on_piece (sep : ascii) (a t : string) :
  has_char sep a = false ->
  split_on sep (a +:+ String sep t) = a :: split_on sep t.
Proof.
  induction a as [|c a IH].
  - intros _. change (split_on sep (String sep t) = "" :: split_on sep t).
    simpl. by rewrite Ascii.eqb_refl.
  - simpl. rewrite orb_false_iff. intros [Hc Ha].
    change (split_on sep (String c (a +:+ String sep t))
            = String c a :: split_on sep t).
    simpl. rewrite Hc, IH by done. reflexivity.
Qed.

(** X1. The gate takes the second space-separated piece of the
    [Authorization] header as the token: the first piece may be any word,
    not only [Bearer], and whatever follows a further space is ignored. *)
Theorem gate_reads_the_second_piece (rt : Runtime) (req : request)
    (scheme token tail : string) :
  header req "X-Admin-Request" <> Some TRUE ->
  has_char " " scheme = false -> has_char " " token = false -> token <> "" ->
  tail = "" \/ (exists r, tail = String " " r) ->
  header req "Authorization" = Some (scheme +:+ String " " (token +:+ tail)) ->
  bearer_token req = Some token
  /\ authMiddleware req
     = match jwt_verify token with
       | inr decoded => Next (set_user decoded req)
       | inl _ => invalid_401
       end.
Proof.
  intros Hadm Hscheme Htoken Hne Htail Hauth.
  assert (Hbearer : bearer_token req = Some token).
  { unfold bearer_token. rewrite Hauth, split_on_piece by done. simpl.
    destruct Htail as [->|[r ->]].
    - by rewrite append_empty, split_on_no_sep.
    - by rewrite split_on_piece. }
  split; [exact Hbearer|].
  by apply authMiddleware_token.
Qed.

Lemma gate_reads_the_second_piece_witness :
  bearer_token (with_headers {[ "authorization" := "Basic alice.jwt trailing words" ]}
                             bare_request) = Some "alice.jwt"
  /\ @authMiddleware sample_runtime
       (with_headers {[ "authorization" := "Basic alice.jwt trailing words" ]}
                     bare_request)
     = match @jwt_verify sample_runtime "alice.jwt" with
       | inr decoded =>
           Next (set_user decoded
                   (with_headers {[ "authorization" := "Basic alice.jwt trailing words" ]}
                                 bare_request))
       | inl _ => invalid_401
       end.
Proof.
  apply (gate_reads_the_second_piece sample_runtime
           (with_headers {[ "authorization" := "Basic alice.jwt trailing words" ]}
                         bare_request)
           "Basic" "alice.jwt" " trailing words").
  - vm_compute. discriminate.
  - reflexivity.
  - reflexivity.
  - discriminate.
  - right. by exists "trailing words".
  - reflexivity.
Defined.

(** X2. A request without the admin header and without a usable token is
    answered 401 by every route behind the access gate, before the handler
    runs: nothing is read from the collection, no file is written and no
    document is changed. *)
Theorem gated_routes_refuse_without_credentials (rt : Runtime) (pf : Platform)
    (up : Update) (e : env) (w : world) (req : request) :
  header req "X-Admin-Request" <> Some TRUE ->
  truthy (bearer_token req) = false ->
  search_route (users w) req = denied_401
  /\ me_route (users w) req = denied_401
  /\ profile_by_id_route (users w) req = denied_401
  /\ upload_picture_route e req w = pure denied_401 w
  /\ update_profile_route e req (users w)
     = written (Refused {| status := 401;
                           json := Message "No token or admin header, authorization denied" |})
               (users w).
Proof.
  intros Hadm Htok.
  pose proof (authMiddleware_no_token req Hadm Htok) as Hgate.
  unfold search_route, me_route, profile_by_id_route, upload_picture_route,
    update_profile_route.
  rewrite Hgate. repeat split.
Qed.

Lemma gated_routes_refuse_without_credentials_witness :
  @search_route sample_runtime (users sample_world) alice_upload_anonymous = denied_401
  /\ @me_route sample_runtime (users sample_world) alice_upload_anonymous = denied_401
  /\ @profile_by_id_route sample_runtime (users sample_world) alice_upload_anonymous
     = denied_401
  /\ @upload_picture_route sample_runtime sample_platform sample_env
       alice_upload_anonymous sample_world = pure denied_401 sample_world
  /\ @update_profile_route sample_runtime sample_update sample_env
       alice_upload_anonymous (users sample_world)
     = written (Refused {| status := 401;
                           json := Message "No token or admin header, authorization denied" |})
               (users sample_world).
Proof.
  apply (gated_routes_refuse_without_credentials sample_runtime sample_platform
           sample_update sample_env sample_world alice_upload_anonymous).
  - vm_compute. discriminate.
  - reflexivity.
Defined.

(** X3. With the admin header alone, and no token, the look-up by id answers
    with the stored profile (without its password), while [/me] and
    [PUT /:id], which read [req.user.userId], end in a TypeError that is
    passed to the error handler. *)
Theorem admin_header_on_profile_routes (rt : Runtime) (up : Update) (e : env)
    (db : list user_doc) (req : request) (id : string) (u : user_doc) :
  header req "X-Admin-Request" = Some TRUE -> user req = None ->
  params_id req = Some id -> isObjectId id = true ->
  List.find (fun v => String.eqb (_id v) id) db = Some u ->
  profile_by_id_route db req = reply 200 (OneProfile (with_password None u))
  /\ me_route db req = NextErr (TypeError "userId")
  /\ update_profile_route e req db = written (Thrown (TypeError "userId")) db.
Proof.
  intros Hadm Huser Hid Hcast Hfind.
  assert (Hgate : authMiddleware req = Next req)
    by (unfold authMiddleware; by rewrite decide_True).
  unfold profile_by_id_route, me_route, update_profile_route.
  rewrite Hgate. simpl. unfold findById.
  rewrite Hid, Huser. simpl. rewrite Hcast, Hfind. done.
Qed.

Lemma admin_header_on_profile_routes_witness :
  @profile_by_id_route sample_runtime sample_users
     (with_params_id "65f0000000000000000000b2" admin_request)
  = reply 200 (OneProfile (with_password None
                 (sample_doc "65f0000000000000000000b2" "bina@x.com" "9000000002" 300)))
  /\ @me_route sample_runtime sample_users
       (with_params_id "65f0000000000000000000b2" admin_request)
     = NextErr (TypeError "userId")
  /\ @update_profile_route sample_runtime sample_update sample_env
       (with_params_id "65f0000000000000000000b2" admin_request) sample_users
     = written (Thrown (TypeError "userId")) sample_users.
Proof.
  apply (admin_header_on_profile_routes sample_runtime sample_update sample_env
           sample_users (with_params_id "65f0000000000000000000b2" admin_request)
           "65f0000000000000000000b2"); reflexivity.
Defined.

(** ** The upload pipelines *)

Lemma write_then_unlink (p : string) (w : world) :
  p ∉ files w -> unlink p (write_file p w) = w.
Proof.
  intros Hfresh. destruct w as [fs us]. unfold unlink, write_file. simpl in *.
  f_equal. apply set_eq. intros x.
  rewrite elem_of_difference, elem_of_union, !elem_of_singleton.
  split; [intros [[->|Hx] Hne]; done|].
  intros Hx. split; [by right|]. intros ->. done.
Qed.

Section UploadEdges.
Context `{pf : Platform}.

(** multer leaves the text fields, the headers and the identity alone. *)
Lemma multer_single_keeps filter dir size field e req w :
  (forall r f, headers (filter r f).1 = headers r /\ user (filter r f).1 = user r
               /\ body (filter r f).1 = body r) ->
  let u := multer_single filter dir size field e req w in
  headers (up_req u) = headers req /\ user (up_req u) = user req
  /\ body (up_req u) = body req /\ users (up_store u) = users w.
Proof.
  intros Hfilter. unfold multer_single.
  destruct (multipart req) as [f|]; [|done].
  destruct (negb _); [done|].
  specialize (Hfilter req f).
  destruct (filter req f) as [req' [m|]]; simpl in *; [tauto|].
  destruct (size <=? part_size f); simpl; tauto.
Qed.

Lemma uploadMiddleware_keeps e req w req' :
  out (uploadMiddleware e req w) = Next req' ->
  headers req' = headers req /\ user req' = user req /\ body req' = body req.
Proof.
  pose proof (multer_single_keeps fileFilter "uploads/profile-pics" fileSize_limit
                "profileImage" e req w) as Hk.
  simpl in Hk. unfold uploadMiddleware, upload.
  destruct Hk as (Hh & Hu & Hb & _).
  { intros r f. unfold fileFilter. by destruct (negb _). }
  destruct (fileValidationError _) as [[|c s]|];
    repeat (match goal with
            | |- context [match ?x with _ => _ end] => destruct x
            end; simpl);
    try discriminate; by intros [= <-].
Qed.

Lemma uploadMiddleware_users e req w :
  users (store (uploadMiddleware e req w)) = users w.
Proof.
  pose proof (multer_single_keeps fileFilter "uploads/profile-pics" fileSize_limit
                "profileImage" e req w) as Hk.
  simpl in Hk. unfold uploadMiddleware, upload.
  destruct Hk as (_ & _ & _ & Hu).
  { intros r f. unfold fileFilter. by destruct (negb _). }
  repeat (match goal with
          | |- context [match ?x with _ => _ end] => destruct x
          end; simpl); done.
Qed.

Lemma register_upload_users e req w :
  users (store (register_upload e req w)) = users w.
Proof.
  pose proof (multer_single_keeps register_fileFilter "uploads/profile-pictures"
                (5 * 1024 * 1024) "profileImage" e req w) as Hk.
  simpl in Hk. unfold register_upload, uploadProfilePic.
  destruct Hk as (_ & _ & _ & Hu).
  { intros r f. unfold register_fileFilter. by destruct (startsWith _ _). }
  repeat (match goal with
          | |- context [match ?x with _ => _ end] => destruct x
          end; simpl); done.
Qed.

End UploadEdges.

(** X4. When either upload pipeline refuses a request (wrong field name,
    refused file, file over the size limit), it answers 400 and leaves the
    upload directories and the collection exactly as they were, provided
    the generated file name was not in use. *)
Theorem refused_uploads_store_nothing (pf : Platform) (e : env) (req : request)
    (w : world) (res : response) :
  fileValidationError req = None ->
  (forall f, multipart req = Some f ->
     (path (stored_at "uploads/profile-pics" e f) ∉ files w)
     /\ (path (stored_at "uploads/profile-pictures" e f) ∉ files w)) ->
  (out (uploadMiddleware e req w) = Respond res ->
   store (uploadMiddleware e req w) = w /\ status res = 400)
  /\ (out (register_upload e req w) = Respond res ->
      store (register_upload e req w) = w /\ status res = 400).
Proof.
  intros Hv Hfresh. split.
  - unfold uploadMiddleware, upload, multer_single, reply.
    destruct (multipart req) as [f|] eqn:Hm; simpl.
    + destruct (Hfresh f eq_refl) as [Hp _].
      destruct (negb (String.eqb (part_fieldname f) "profileImage")); simpl.
      { rewrite Hv. simpl. intros [= <-]. done. }
      unfold fileFilter.
      destruct (negb (match_image_extension (part_originalname f))); simpl.
      { intros [= <-]. done. }
      destruct (fileSize_limit <=? part_size f); simpl.
      * rewrite write_then_unlink, Hv by done. simpl. intros [= <-]. done.
      * rewrite Hv. discriminate.
    + rewrite Hv. discriminate.
  - unfold register_upload, uploadProfilePic, multer_single, reply.
    destruct (multipart req) as [f|] eqn:Hm; simpl; [|discriminate].
    destruct (Hfresh f eq_refl) as [_ Hp].
    destruct (negb (String.eqb (part_fieldname f) "profileImage")); simpl.
    { intros [= <-]. done. }
    unfold register_fileFilter.
    destruct (startsWith "image/" (part_mimetype f)); simpl.
    + destruct (5 * 1024 * 1024 <=? part_size f); simpl; [|discriminate].
      rewrite write_then_unlink by done. intros [= <-]. done.
    + intros [= <-]. done.
Qed.

Lemma refused_uploads_store_nothing_witness :
  (out (@uploadMiddleware sample_platform sample_env disguised_upload sample_world)
   = Respond {| status := 400;
                json := Message "Only image files (jpg, jpeg, png, gif) are allowed!" |} ->
   store (@uploadMiddleware sample_platform sample_env disguised_upload sample_world)
   = sample_world
   /\ status {| status := 400;
                json := Message "Only image files (jpg, jpeg, png, gif) are allowed!" |}
      = 400)
  /\ store (@uploadMiddleware sample_platform sample_env disguised_upload sample_world)
     = sample_world.
Proof.
  destruct (refused_uploads_store_nothing sample_platform sample_env
              disguised_upload sample_world
              {| status := 400;
                 json := Message "Only image files (jpg, jpeg, png, gif) are allowed!" |})
    as [Hupload _].
  - reflexivity.
  - intros f _. split; vm_compute; intros H; discriminate H.
  - split; [exact Hupload|]. apply Hupload. reflexivity.
Defined.

(** X5. For a part under the right field with an allowed name and type, a
    pipeline admits it exactly when it is smaller than 5 MiB (5242880
    bytes); a part of 5242880 bytes or more is answered 400 with the
    pipeline's own size message. *)
Theorem upload_size_ceiling (pf : Platform) (e : env) (req : request)
    (w : world) (f : file_part) :
  multipart req = Some f -> part_fieldname f = "profileImage" ->
  fileValidationError req = None ->
  match_image_extension (part_originalname f) = true ->
  startsWith "image/" (part_mimetype f) = true ->
  (is_Some (admitted (uploadMiddleware e req w)) <-> part_size f < 5242880)
  /\ (is_Some (admitted (register_upload e req w)) <-> part_size f < 5242880)
  /\ (5242880 <= part_size f ->
      out (uploadMiddleware e req w)
      = reply 400 (Message "File size cannot be larger than 5MB!")
      /\ out (register_upload e req w)
         = reply 400 (FieldErrors "Image size cannot exceed 5MB."
                        [("profileImage", "Image size cannot exceed 5MB.")])).
Proof.
  intros Hm Hf Hv Hext Hmime.
  destruct (Z_lt_ge_dec (part_size f) 5242880) as [Hlt|Hge].
  - rewrite (uploadMiddleware_admits e req w f),
      (register_upload_admits e req w f) by (done || (unfold fileSize_limit; lia)).
    unfold admitted. simpl. repeat split; intros; (done || lia || by eexists).
  - assert (Hbig : (fileSize_limit <=? part_size f) = true)
      by (apply Z.leb_le; unfold fileSize_limit; lia).
    assert (Hbig' : (5 * 1024 * 1024 <=? part_size f) = true)
      by (apply Z.leb_le; lia).
    unfold uploadMiddleware, upload, register_upload, uploadProfilePic,
      multer_single, fileFilter, register_fileFilter, admitted.
    rewrite Hm, Hf, Hext, Hmime. simpl String.eqb. cbv iota. simpl negb. cbv iota.
    rewrite Hbig, Hbig'. cbn [up_req up_err]. rewrite Hv. simpl.
    repeat split; intros; try lia; try done;
      match goal with H : is_Some None |- _ => by destruct H end.
Qed.

(** At the limit itself: a picture of exactly 5242880 bytes is refused by
    both pipelines. *)
Lemma upload_size_ceiling_witness :
  (is_Some (admitted (@uploadMiddleware sample_platform sample_env
                        (with_multipart (picture_part "me.png" "image/png" 5242880)
                                        bare_request) sample_world))
   <-> 5242880 < 5242880)
  /\ (is_Some (admitted (@register_upload sample_platform sample_env
                           (with_multipart (picture_part "me.png" "image/png" 5242880)
                                           bare_request) sample_world))
      <-> 5242880 < 5242880)
  /\ (5242880 <= 5242880 ->
      out (@uploadMiddleware sample_platform sample_env
             (with_multipart (picture_part "me.png" "image/png" 5242880)
                             bare_request) sample_world)
      = reply 400 (Message "File size cannot be larger than 5MB!")
      /\ out (@register_upload sample_platform sample_env
                (with_multipart (picture_part "me.png" "image/png" 5242880)
                                bare_request) sample_world)
         = reply 400 (FieldErrors "Image size cannot exceed 5MB."
                        [("profileImage", "Image size cannot exceed 5MB.")])).
Proof.
  apply (upload_size_ceiling sample_platform sample_env
           (with_multipart (picture_part "me.png" "image/png" 5242880) bare_request)
           sample_world (picture_part "me.png" "image/png" 5242880)); reflexivity.
Defined.

(** One byte less is admitted and stays in storage. *)
Example largest_admitted_picture :
  calls (@uploadMiddleware sample_platform sample_env
           (with_multipart (picture_part "me.png" "image/png" 5242879) bare_request)
           sample_world)
  = [Write "uploads/profile-pics/profileImage-1700000000000-123456789.png"]
  /\ calls (@uploadMiddleware sample_platform sample_env
              (with_multipart (picture_part "me.png" "image/png" 5242880) bare_request)
              sample_world)
     = [Write "uploads/profile-pics/profileImage-1700000000000-123456789.png";
        Unlink "uploads/profile-pics/profileImage-1700000000000-123456789.png"].
Proof. split; reflexivity. Qed.

(** ** Changing one document *)

Lemma update_first_found (id : string) (f : user_doc -> user_doc)
    (db : list user_doc) (v : user_doc) :
  In v db -> _id v = id -> is_Some (update_first id f db).
Proof.
  induction db as [|u rest IH]; simpl; [done|].
  intros [->|Hin] Hid.
  - rewrite Hid, String.eqb_refl. eauto.
  - destruct (String.eqb (_id u) id); [eauto|].
    destruct (IH Hin Hid) as [[w rest'] ->]. eauto.
Qed.

Lemma update_first_spec (id : string) (f : user_doc -> user_doc)
    (db db' : list user_doc) (u : user_doc) :
  update_first id f db = Some (u, db') ->
  (exists v, In v db /\ _id v = id /\ u = f v)
  /\ In u db' /\ length db' = length db
  /\ forall i v, db !! i = Some v -> _id v <> id -> db' !! i = Some v.
Proof.
  revert db' u. induction db as [|x rest IH]; simpl; [done|].
  intros db' u. destruct (String.eqb (_id x) id) eqn:Hx.
  - intros [= <- <-]. apply String.eqb_eq in Hx.
    split; [exists x; auto|]. split; [by left|]. split; [done|].
    intros [|i] v; simpl; [|done]. intros [= ->]. done.
  - destruct (update_first id f rest) as [[w rest']|] eqn:Hrest; [|done].
    intros [= <- <-].
    destruct (IH _ _ eq_refl) as ((v & Hv & Hid & ->) & Hin & Hlen & Hother).
    split; [exists v; auto|]. split; [by right|].
    split; [simpl; by rewrite Hlen|].
    intros [|i] y; simpl; [done|]. apply Hother.
Qed.

Lemma update_first_none (id : string) (f : user_doc -> user_doc)
    (db : list user_doc) :
  update_first id f db = None -> forall v, In v db -> _id v <> id.
Proof.
  induction db as [|x rest IH]; simpl; [done|].
  destruct (String.eqb (_id x) id) eqn:Hx; [done|].
  destruct (update_first id f rest) as [[w rest']|]; [done|].
  intros _ v [<-|Hin]; [by apply String.eqb_neq | by apply IH].
Qed.

(** ** The picture upload, end to end *)

(** X6. A request that passes the gate but brings no file part is answered
    400 by the handler of [POST /me/upload-picture]; nothing is written and
    nothing is changed. *)
Theorem upload_picture_without_file (rt : Runtime) (pf : Platform) (e : env)
    (req req1 : request) (w : world) :
  multipart req = None -> file req = None -> fileValidationError req = None ->
  authMiddleware req = Next req1 ->
  upload_picture_route e req w
  = pure (reply 400 (Message "No file uploaded or middleware error occurred.")) w.
Proof.
  intros Hm Hf Hv Hgate.
  assert (H1 : multipart req1 = None /\ file req1 = None
               /\ fileValidationError req1 = None).
  { destruct (authMiddleware_next req req1 Hgate) as [->|[decoded ->]]; done. }
  destruct H1 as (Hm1 & Hf1 & Hv1).
  unfold upload_picture_route. rewrite Hgate, chain_pure_next.
  assert (Hup : uploadMiddleware e req1 w = pure (Next req1) w).
  { unfold uploadMiddleware, upload, multer_single. rewrite Hm1. simpl.
    by rewrite Hv1. }
  rewrite Hup, chain_pure_next.
  unfold upload_picture_handler. by rewrite Hf1.
Qed.

Lemma upload_picture_without_file_witness :
  @upload_picture_route sample_runtime sample_platform sample_env alice_request
    sample_world
  = pure (reply 400 (Message "No file uploaded or middleware error occurred."))
         sample_world.
Proof.
  apply (upload_picture_without_file sample_runtime sample_platform sample_env
           alice_request (set_user alice alice_request) sample_world); reflexivity.
Defined.

(** X7. A picture upload (smaller than 5 MiB, allowed name) by an
    identified user whose document exists: the file is written under
    [uploads/profile-pics]; the caller's own document, otherwise unchanged,
    gets the public path of exactly that file as its [profilePicture]; the
    answer is 200 with that document without its password, and the
    collection keeps its size. *)
Theorem upload_picture_success (rt : Runtime) (pf : Platform) (e : env)
    (req req1 : request) (w : world) (f : file_part) (caller : token_payload)
    (v : user_doc) :
  authMiddleware req = Next req1 ->
  header req "X-Admin-Request" <> Some TRUE ->
  user req1 = Some caller -> userId caller <> "" ->
  multipart req = Some f -> part_fieldname f = "profileImage" ->
  fileValidationError req = None ->
  match_image_extension (part_originalname f) = true ->
  part_size f < fileSize_limit ->
  isObjectId (userId caller) = true -> store_fault e = None ->
  In v (users w) -> _id v = userId caller ->
  exists u,
    out (upload_picture_route e req w)
    = reply 200 (PictureUploaded ("/" +:+ path (stored_at "uploads/profile-pics" e f))
                                 (select MinusPassword u))
    /\ _id u = userId caller
    /\ (exists v0, In v0 (users w) /\ _id v0 = userId caller
         /\ u = with_profilePicture
                  ("/" +:+ path (stored_at "uploads/profile-pics" e f)) v0)
    /\ profilePicture u = "/" +:+ path (stored_at "uploads/profile-pics" e f)
    /\ In u (users (store (upload_picture_route e req w)))
    /\ length (users (store (upload_picture_route e req w))) = length (users w)
    /\ files (store (upload_picture_route e req w))
       = {[ path (stored_at "uploads/profile-pics" e f) ]} ∪ files w
    /\ calls (upload_picture_route e req w)
       = [Write (path (stored_at "uploads/profile-pics" e f))].
Proof.
  intros Hgate Hadm Hcaller Hne Hm Hf Hv Hext Hsize Hcast Hfault Hin Hid.
  assert (H1 : multipart req1 = Some f /\ fileValidationError req1 = None
               /\ headers req1 = headers req).
  { destruct (authMiddleware_next req req1 Hgate) as [->|[decoded ->]]; done. }
  destruct H1 as (Hm1 & Hv1 & Hh1).
  unfold upload_picture_route.
  rewrite Hgate, chain_pure_next, (uploadMiddleware_admits e req1 w f) by done.
  rewrite (chain_next _ (set_file (stored_at "uploads/profile-pics" e f) req1))
    by reflexivity.
  cbn [out store calls].
  destruct (update_first_found (userId caller)
              (with_profilePicture ("/" +:+ path (stored_at "uploads/profile-pics" e f)))
              (users w) v Hin Hid) as [[u db'] Hupd].
  destruct (update_first_spec _ _ _ _ _ Hupd)
    as ((v' & Hv' & Hid' & Hu) & Hin' & Hlen & _).
  assert (Hhandler :
            upload_picture_handler e
              (set_file (stored_at "uploads/profile-pics" e f) req1)
              (write_file (path (stored_at "uploads/profile-pics" e f)) w)
            = {| out := reply 200
                          (PictureUploaded
                             ("/" +:+ path (stored_at "uploads/profile-pics" e f))
                             (select MinusPassword u));
                 store := set_users db'
                            (write_file (path (stored_at "uploads/profile-pics" e f)) w);
                 calls := [] |}).
  { unfold upload_picture_handler. cbn [file set_file].
    assert (Hnot : bool_decide
                     (header (set_file (stored_at "uploads/profile-pics" e f) req1)
                             "X-Admin-Request" = Some TRUE) = false).
    { apply bool_decide_eq_false_2. unfold header in *. simpl in *.
      by rewrite Hh1. }
    rewrite Hnot. cbn [user set_file]. rewrite Hcaller.
    destruct caller as [[|c r] ? ? ?]; [done|]. cbn [userId] in *.
    unfold findByIdAndUpdate_picture. rewrite Hcast, Hfault.
    change ("/uploads/profile-pics/"
            +:+ filename (stored_at "uploads/profile-pics" e f))
      with ("/" +:+ path (stored_at "uploads/profile-pics" e f)).
    cbn [users write_file]. rewrite Hupd. reflexivity. }
  rewrite Hhandler. cbn [out store calls users files set_users write_file].
  exists u. split; [done|]. split; [by rewrite Hu|].
  split; [by exists v'|]. repeat split; try done. by rewrite Hu.
Qed.

Lemma upload_picture_success_witness :
  exists u,
    out (@upload_picture_route sample_runtime sample_platform sample_env
           alice_upload sample_world)
    = reply 200
        (PictureUploaded
           ("/" +:+ path (@stored_at sample_platform "uploads/profile-pics" sample_env
                            (picture_part "me.png" "image/png" 2048)))
           (select MinusPassword u))
    /\ _id u = userId alice
    /\ (exists v0, In v0 (users sample_world) /\ _id v0 = userId alice
         /\ u = with_profilePicture
                  ("/" +:+ path (@stored_at sample_platform "uploads/profile-pics"
                                   sample_env (picture_part "me.png" "image/png" 2048)))
                  v0)
    /\ profilePicture u
       = "/" +:+ path (@stored_at sample_platform "uploads/profile-pics" sample_env
                         (picture_part "me.png" "image/png" 2048))
    /\ In u (users (store (@upload_picture_route sample_runtime sample_platform
                             sample_env alice_upload sample_world)))
    /\ length (users (store (@upload_picture_route sample_runtime sample_platform
                               sample_env alice_upload sample_world)))
       = length (users sample_world)
    /\ files (store (@upload_picture_route sample_runtime sample_platform
                       sample_env alice_upload sample_world))
       = {[ path (@stored_at sample_platform "uploads/profile-pics" sample_env
                    (picture_part "me.png" "image/png" 2048)) ]} ∪ files sample_world
    /\ calls (@upload_picture_route sample_runtime sample_platform sample_env
                alice_upload sample_world)
       = [Write (path (@stored_at sample_platform "uploads/profile-pics" sample_env
                         (picture_part "me.png" "image/png" 2048)))].
Proof.
  apply (upload_picture_success sample_runtime sample_platform sample_env
           alice_upload (set_user alice alice_upload) sample_world
           (picture_part "me.png" "image/png" 2048) alice
           (sample_doc "65f0000000000000000000a1" "alice@x.com" "9000000001" 100)).
  - reflexivity.
  - vm_compute. discriminate.
  - reflexivity.
  - discriminate.
  - reflexivity.
  - reflexivity.
  - reflexivity.
  - reflexivity.
  - vm_compute. reflexivity.
  - reflexivity.
  - reflexivity.
  - left. reflexivity.
  - reflexivity.
Defined.

Section PictureOwnership.
Context `{rt : Runtime} `{pf : Platform}.

(** Without the admin header the handler changes, if anything, the
    document of the identified caller. *)
Lemma upload_picture_handler_users e req w caller :
  header req "X-Admin-Request" <> Some TRUE -> user req = Some caller ->
  users (store (upload_picture_handler e req w)) = users w
  \/ exists p u,
       update_first (userId caller) (with_profilePicture p) (users w)
       = Some (u, users (store (upload_picture_handler e req w))).
Proof.
  intros Hadm Huser. unfold upload_picture_handler.
  destruct (file req) as [f|]; [|by left].
  rewrite bool_decide_eq_false_2 by done. rewrite Huser.
  destruct caller as [[|c r] ? ? ?]; [by left|]. cbn [userId].
  unfold findByIdAndUpdate_picture.
  destruct (isObjectId _); [|by left].
  destruct (store_fault e) as [err|].
  { destruct (String.eqb _ _); by left. }
  destruct (update_first _ _ _) as [[u db']|] eqn:Hupd; [|by left].
  right. by exists ("/uploads/profile-pics/" +:+ filename f), u.
Qed.

End PictureOwnership.

(** X8. Without the admin header, [POST /me/upload-picture] never changes
    the document of anybody but the caller the token identifies: every
    other document stays where it was, whatever the body says (a [userId]
    in the body is only read on the admin path). *)
Theorem upload_picture_changes_own_document_only (rt : Runtime) (pf : Platform)
    (e : env) (req req1 : request) (w : world) (caller : token_payload) :
  header req "X-Admin-Request" <> Some TRUE ->
  authMiddleware req = Next req1 -> user req1 = Some caller ->
  forall (i : nat) (v : user_doc),
    users w !! i = Some v -> _id v <> userId caller ->
    users (store (upload_picture_route e req w)) !! i = Some v.
Proof.
  intros Hadm Hgate Hcaller i v Hi Hv.
  assert (Hh1 : headers req1 = headers req).
  { destruct (authMiddleware_next req req1 Hgate) as [->|[decoded ->]]; done. }
  unfold upload_picture_route. rewrite Hgate, chain_pure_next.
  pose proof (uploadMiddleware_users e req1 w) as Husers.
  unfold chain.
  destruct (out (uploadMiddleware e req1 w)) as [req2| |] eqn:Hout;
    try (by rewrite Husers).
  cbn [store].
  destruct (uploadMiddleware_keeps e req1 w req2 Hout) as (Hh2 & Hu2 & _).
  destruct (upload_picture_handler_users e req2 (store (uploadMiddleware e req1 w))
              caller) as [->|(p & u & Hupd)].
  - unfold header in *. simpl in *. by rewrite Hh2, Hh1.
  - by rewrite Hu2.
  - by rewrite Husers.
  - rewrite Husers in Hupd.
    destruct (update_first_spec _ _ _ _ _ Hupd) as (_ & _ & _ & Hother).
    by apply Hother.
Qed.

Lemma upload_picture_changes_own_document_only_witness :
  users (store (@upload_picture_route sample_runtime sample_platform sample_env
                  (with_body {[ "userId" := "65f0000000000000000000b2" ]} alice_upload)
                  sample_world)) !! 1%nat
  = Some (sample_doc "65f0000000000000000000b2" "bina@x.com" "9000000002" 300).
Proof.
  apply (upload_picture_changes_own_document_only sample_runtime sample_platform
           sample_env
           (with_body {[ "userId" := "65f0000000000000000000b2" ]} alice_upload)
           (set_user alice
              (with_body {[ "userId" := "65f0000000000000000000b2" ]} alice_upload))
           sample_world alice).
  - vm_compute. discriminate.
  - reflexivity.
  - reflexivity.
  - reflexivity.
  - vm_compute. discriminate.
Defined.

(** ** Registration, end to end *)

Lemma lower_ascii_idem (c : ascii) : lower_ascii (lower_ascii c) = lower_ascii c.
Proof.
  destruct c as [b0 b1 b2 b3 b4 b5 b6 b7].
  destruct b0, b1, b2, b3, b4, b5, b6, b7; reflexivity.
Qed.

Lemma toLowerCase_idem (s : string) : toLowerCase (toLowerCase s) = toLowerCase s.
Proof.
  induction s as [|c s IH]; simpl; [done|].
  by rewrite lower_ascii_idem, IH.
Qed.

Lemma find_app_last {A} (P : A -> bool) (l : list A) (x : A) :
  (forall v, In v l -> P v = false) -> P x = true ->
  List.find P (l ++ [x]) = Some x.
Proof.
  intros Hl Hx. induction l as [|v l IH]; simpl.
  - by rewrite Hx.
  - rewrite (Hl v) by (by left). apply IH. intros w Hw. apply Hl. by right.
Qed.

Section SaveProperties.
Context `{rt : Runtime}.

(** What a successful [save] has done. *)
Lemma save_spec e u db saved db' :
  save e u db = inr (saved, db') ->
  saved = with_password (bcrypt_hash <$> password u) u
  /\ db' = (db ++ [saved])%list
  /\ validate u = [] /\ store_fault e = None
  /\ forall v, In v db -> email v <> email u /\ mobileNumber v <> mobileNumber u.
Proof.
  unfold save. destruct (validate u); [|done].
  destruct (store_fault e); [done|].
  destruct (existsb _ db) eqn:Hex; [done|].
  intros [= <- <-]. repeat split; try done.
  - intros Heq. rewrite <- not_true_iff_false in Hex. apply Hex.
    apply existsb_exists. exists v. split; [done|]. cbv beta.
    by rewrite Heq, String.eqb_refl.
  - intros Heq. rewrite <- not_true_iff_false in Hex. apply Hex.
    apply existsb_exists. exists v. split; [done|]. cbv beta.
    by rewrite Heq, String.eqb_refl, orb_true_r.
Qed.

End SaveProperties.

Section RegisterProperties.
Context `{rt : Runtime} `{pf : Platform}.

(** The handler either leaves the collection alone or has saved the new
    user and answers 201 with it. *)
Lemma register_handler_cases e req w :
  users (store (register_handler e req w)) = users w
  \/ (essentials_present req = true
      /\ exists saved,
           save e (newUser e req) (users w)
           = inr (saved, users (store (register_handler e req w)))
           /\ out (register_handler e req w)
              = reply 201 (Registered (jwt_sign (_id saved) (doc_role saved))
                                      (delete_password saved))).
Proof.
  unfold register_handler.
  destruct (essentials_present req) eqn:Hess; simpl; [|by left].
  destruct (existingUser req (users w)).
  { unfold unlink_upload. destruct (file req); by left. }
  destruct (save e (newUser e req) (users w)) as [err|[saved db]] eqn:Hsave.
  - unfold unlink_upload.
    destruct (String.eqb _ _); [destruct (file req)|]; by left.
  - right. split; [done|]. by exists saved.
Qed.

Lemma register_upload_keeps e req w req' :
  out (register_upload e req w) = Next req' -> body req' = body req.
Proof.
  pose proof (multer_single_keeps register_fileFilter "uploads/profile-pictures"
                (5 * 1024 * 1024) "profileImage" e req w) as Hk.
  simpl in Hk. unfold register_upload, uploadProfilePic.
  destruct Hk as (_ & _ & Hb & _).
  { intros r f. unfold register_fileFilter. by destruct (startsWith _ _). }
  repeat (match goal with
          | |- context [match ?x with _ => _ end] => destruct x
          end; simpl);
    try discriminate; by intros [= <-].
Qed.

Lemma essentials_password req :
  essentials_present req = true ->
  exists pw, body req !! "password" = Some pw /\ pw <> "".
Proof.
  unfold essentials_present, essential_fields. simpl.
  rewrite !andb_true_iff. intros (_ & Hpw & _).
  destruct (body req !! "password") as [[|c r]|]; try discriminate.
  by exists (String c r).
Qed.

(** The route as a whole. *)
Lemma register_route_cases e req w :
  users (store (register_route e req w)) = users w
  \/ exists req' saved,
       body req' = body req /\ essentials_present req' = true
       /\ save e (newUser e req') (users w)
          = inr (saved, users (store (register_route e req w)))
       /\ out (register_route e req w)
          = reply 201 (Registered (jwt_sign (_id saved) (doc_role saved))
                                  (delete_password saved)).
Proof.
  unfold register_route, chain.
  pose proof (register_upload_users e req w) as Husers.
  destruct (out (register_upload e req w)) as [req'| |] eqn:Hout;
    try (by left).
  cbn [store out].
  destruct (register_handler_cases e req' (store (register_upload e req w)))
    as [->|(Hess & saved & Hsave & Hout')].
  - by left.
  - right. exists req', saved. rewrite Husers in Hsave.
    split; [by eapply register_upload_keeps|]. done.
Qed.

End RegisterProperties.

(** X9. [POST /register] adds a user only when it answers 201, and then it
    adds exactly one document at the end of the collection: the one in the
    answer, there without its password, stored with the hash of the
    submitted password and never with the password itself, with the
    lower-cased and trimmed address and the role [user]. *)
Theorem register_adds_one_hashed_user (rt : Runtime) (pf : Platform) (e : env)
    (req : request) (w : world) :
  users (store (register_route e req w)) = users w
  \/ exists saved pw,
       users (store (register_route e req w)) = (users w ++ [saved])%list
       /\ out (register_route e req w)
          = reply 201 (Registered (jwt_sign (new_id e) "user") (delete_password saved))
       /\ body req !! "password" = Some pw /\ pw <> ""
       /\ password saved = Some (bcrypt_hash pw)
       /\ email saved = trim (toLowerCase (default "" (body req !! "email")))
       /\ doc_role saved = "user" /\ _id saved = new_id e.
Proof.
  destruct (register_route_cases e req w)
    as [H|(req' & saved & Hbody & Hess & Hsave & Hout)]; [by left|].
  right.
  destruct (essentials_password req' Hess) as (pw & Hpw & Hne).
  destruct (save_spec _ _ _ _ _ Hsave) as (Hsaved & Hdb & _).
  exists saved, pw. rewrite Hout, Hdb, <- Hbody, Hpw.
  subst saved.
  split; [reflexivity|]. split; [reflexivity|]. split; [reflexivity|].
  split; [exact Hne|].
  split; [cbn [password with_password newUser]; by rewrite Hpw|].
  split; [reflexivity|]. split; reflexivity.
Qed.

Example register_adds_one_hashed_user_sample :
  exists saved,
    users (store (@register_route sample_runtime sample_platform sample_env
                    new_registration sample_world))
    = (sample_users ++ [saved])%list
    /\ password saved = Some "$2a$10$secret1"
    /\ email saved = "dina@x.com".
Proof. eexists. split; [reflexivity|]. split; reflexivity. Qed.

Section RegisterAnswers.
Context `{rt : Runtime} `{pf : Platform}.

Lemma register_handler_201 e req w token u :
  out (register_handler e req w) = reply 201 (Registered token u) ->
  essentials_present req = true
  /\ exists saved,
       save e (newUser e req) (users w)
       = inr (saved, users (store (register_handler e req w)))
       /\ u = delete_password saved.
Proof.
  unfold register_handler, reply.
  destruct (essentials_present req) eqn:Hess; simpl; [|discriminate].
  destruct (existingUser req (users w)).
  { unfold unlink_upload. destruct (file req); discriminate. }
  destruct (save e (newUser e req) (users w)) as [err|[saved db]] eqn:Hsave.
  - unfold unlink_upload, handleValidationError, reply.
    destruct (String.eqb _ _); [destruct (file req)|]; discriminate.
  - simpl. intros [= _ <-]. split; [done|]. by exists saved.
Qed.

Lemma register_upload_status e req w res :
  out (register_upload e req w) = Respond res -> status res = 400.
Proof.
  unfold register_upload, uploadProfilePic, multer_single, register_fileFilter,
    reply.
  repeat (match goal with
          | |- context [match ?x with _ => _ end] => destruct x
          end; simpl);
    try discriminate; by intros [= <-].
Qed.

Lemma register_route_201 e req w token u :
  out (register_route e req w) = reply 201 (Registered token u) ->
  exists req' saved,
    body req' = body req /\ essentials_present req' = true
    /\ save e (newUser e req') (users w)
       = inr (saved, users (store (register_route e req w)))
    /\ u = delete_password saved.
Proof.
  unfold register_route, chain.
  pose proof (register_upload_users e req w) as Husers.
  destruct (out (register_upload e req w)) as [req'|res|err] eqn:Hout.
  - cbn [out store]. intros (Hess & saved & Hsave & Hu)%register_handler_201.
    exists req', saved. rewrite Husers in Hsave.
    split; [by eapply register_upload_keeps|]. done.
  - cbv iota. intros H201. rewrite Hout in H201.
    apply register_upload_status in Hout. unfold reply in H201.
    injection H201 as ->. discriminate Hout.
  - cbv iota. intros H201. rewrite Hout in H201. discriminate H201.
Qed.

End RegisterAnswers.

(** X11. Registration and login fit together: after a 201 from
    [POST /register], [POST /login] with the same address and password
    answers 200 with the same user document and a token for its id and
    role when the login's validator [isEmail] accepts the address, and 400
    "Validation failed" when it does not (the registration does not ask
    it); provided the new id was not in use, [normalizeEmail] does not
    change the lower-cased address, and [bcrypt.compare] accepts a password
    against its own hash. *)
Theorem register_then_login (rt : Runtime) (pf : Platform) (lg : Login)
    (e : env) (req req' : request) (w : world) (token : string) (u : user_doc)
    (em pw : string) :
  out (register_route e req w) = reply 201 (Registered token u) ->
  (forall v, In v (users w) -> _id v <> new_id e) ->
  body req !! "email" = Some em -> body req !! "password" = Some pw ->
  trim (toLowerCase (toLowerCase (normalizeEmail em))) = trim (toLowerCase em) ->
  bcrypt_compare pw (bcrypt_hash pw) = true ->
  body req' !! "email" = Some em -> body req' !! "password" = Some pw ->
  login_route (users (store (register_route e req w))) req'
  = if isEmail em
    then reply 200 (Registered (jwt_sign (new_id e) "user") u)
    else reply 400 (FieldErrors "Validation failed"
                      [("email", "Enter a valid email")]).
Proof.
  intros (req1 & saved & Hbody & Hess & Hsave & ->)%register_route_201
    Hfresh Hem Hpw Hnorm Hcmp Hem' Hpw'.
  destruct (save_spec _ _ _ _ _ Hsave) as (Hsaved & -> & _ & _ & Huniq).
  destruct (essentials_password req1 Hess) as (pw1 & Hpw1 & Hne).
  rewrite Hbody, Hpw in Hpw1. injection Hpw1 as <-.
  assert (Hsaved_mail : email saved = trim (toLowerCase em)).
  { rewrite Hsaved. cbn [email with_password newUser]. by rewrite Hbody, Hem. }
  assert (Hsaved_pw : password saved = Some (bcrypt_hash pw)).
  { rewrite Hsaved. cbn [password with_password newUser]. by rewrite Hbody, Hpw. }
  assert (Hsaved_id : _id saved = new_id e) by (by rewrite Hsaved).
  assert (Hsaved_role : doc_role saved = "user") by (by rewrite Hsaved).
  assert (Hnew_mail : email (newUser e req1) = trim (toLowerCase em)).
  { cbn [email newUser]. by rewrite Hbody, Hem. }
  unfold login_route, login_errors. rewrite Hem', Hpw'.
  cbn [from_option]. unfold id.
  destruct pw as [|c r]; [done|]. cbn [truthy].
  destruct (isEmail em); [|reflexivity]. cbn [app].
  unfold findOne_email.
  rewrite (find_app_last _ (users w) saved).
  - unfold comparePassword.
    rewrite (find_app_last _ (users w) saved).
    + cbn [select]. rewrite Hsaved_pw, Hcmp, Hsaved_id, Hsaved_role. reflexivity.
    + intros v Hv. apply String.eqb_neq. rewrite Hsaved_id. by apply Hfresh.
    + apply String.eqb_refl.
  - intros v Hv. apply String.eqb_neq. rewrite Hnorm, <- Hnew_mail.
    by destruct (Huniq v Hv).
  - apply String.eqb_eq. by rewrite Hnorm.
Qed.

Lemma register_then_login_witness :
  exists u,
    out (@register_route sample_runtime sample_platform sample_env
           new_registration sample_world)
    = reply 201 (Registered "65f0000000000000000000c3.user.jwt" u)
    /\ @login_route sample_runtime sample_login
         (users (store (@register_route sample_runtime sample_platform sample_env
                          new_registration sample_world)))
         (login_request "Dina@X.com" "secret1")
       = if @isEmail sample_login "Dina@X.com"
         then reply 200 (Registered (@jwt_sign sample_runtime (new_id sample_env) "user") u)
         else reply 400 (FieldErrors "Validation failed"
                           [("email", "Enter a valid email")]).
Proof.
  eexists. split; [reflexivity|].
  apply (register_then_login sample_runtime sample_platform sample_login
           sample_env new_registration (login_request "Dina@X.com" "secret1")
           sample_world "65f0000000000000000000c3.user.jwt" _ "Dina@X.com" "secret1").
  - reflexivity.
  - intros v Hv. vm_compute in Hv.
    repeat (destruct Hv as [<-|Hv]; [discriminate|]). destruct Hv.
  - reflexivity.
  - reflexivity.
  - reflexivity.
  - reflexivity.
  - reflexivity.
  - reflexivity.
Defined.

(** The login after that registration, evaluated. *)
Example register_then_login_sample :
  exists u,
    @login_route sample_runtime sample_login
      (users (store (@register_route sample_runtime sample_platform sample_env
                       new_registration sample_world)))
      (login_request "Dina@X.com" "secret1")
    = reply 200 (Registered "65f0000000000000000000c3.user.jwt" u)
    /\ email u = "dina@x.com" /\ password u = None.
Proof. eexists. split; [reflexivity|]. split; reflexivity. Qed.

(** X12. After a 201 from [POST /register] the new profile can be read
    back: [GET /:id] with the new id, behind the gate, answers 200 with the
    very document the registration answered with, provided the id was not
    in use. *)
Theorem register_then_read (rt : Runtime) (pf : Platform) (e : env)
    (req req' req1 : request) (w : world) (token : string) (u : user_doc) :
  out (register_route e req w) = reply 201 (Registered token u) ->
  (forall v, In v (users w) -> _id v <> new_id e) ->
  isObjectId (new_id e) = true ->
  authMiddleware req' = Next req1 -> params_id req1 = Some (new_id e) ->
  profile_by_id_route (users (store (register_route e req w))) req'
  = reply 200 (OneProfile u).
Proof.
  intros (req2 & saved & _ & _ & Hsave & ->)%register_route_201
    Hfresh Hcast Hgate Hid.
  destruct (save_spec _ _ _ _ _ Hsave) as (Hsaved & -> & _).
  assert (Hsaved_id : _id saved = new_id e) by (by rewrite Hsaved).
  unfold profile_by_id_route. rewrite Hgate. cbn [and_then].
  rewrite Hid. cbn [from_option]. unfold id, findById. rewrite Hcast.
  rewrite (find_app_last _ (users w) saved); [done| |].
  - intros v Hv. apply String.eqb_neq. by apply Hfresh.
  - apply String.eqb_eq. done.
Qed.

Lemma register_then_read_witness :
  exists u,
    out (@register_route sample_runtime sample_platform sample_env
           new_registration sample_world)
    = reply 201 (Registered "65f0000000000000000000c3.user.jwt" u)
    /\ @profile_by_id_route sample_runtime
         (users (store (@register_route sample_runtime sample_platform sample_env
                          new_registration sample_world)))
         (with_params_id "65f0000000000000000000c3" alice_request)
       = reply 200 (OneProfile u).
Proof.
  eexists. split; [reflexivity|].
  apply (register_then_read sample_runtime sample_platform sample_env
           new_registration
           (with_params_id "65f0000000000000000000c3" alice_request)
           (set_user alice (with_params_id "65f0000000000000000000c3" alice_request))
           sample_world "65f0000000000000000000c3.user.jwt").
  - reflexivity.
  - intros v Hv. vm_compute in Hv.
    repeat (destruct Hv as [<-|Hv]; [discriminate|]). destruct Hv.
  - reflexivity.
  - reflexivity.
  - reflexivity.
Defined.

(** ** More on the queries *)

Section SearchSoundness.
Context `{rt : Runtime}.

Lemma search_filter_of_fields req f :
  search_filter_of req = inr f ->
  f_gender f = nonempty (query req !! "gender")
  /\ regex_param (query req !! "religion") = inr (f_religion f).
Proof.
  unfold search_filter_of.
  destruct (user req) as [caller|]; [|discriminate].
  destruct (regex_param (query req !! "location")) as [?|loc]; [discriminate|].
  destruct (regex_param (query req !! "religion")) as [?|rel]; [discriminate|].
  by intros [= <-].
Qed.

End SearchSoundness.

(** X13. Every document the search answers with is a stored document
    without its password that meets the requested conditions: its gender
    equals a non-empty [gender] parameter, and its religion is present and
    passes the pattern built from a non-empty [religion] parameter. *)
Theorem search_results_meet_the_filter (rt : Runtime) (db : list user_doc)
    (req req1 : request) (res : response) :
  authMiddleware req = Next req1 ->
  search_route db req = Respond res ->
  forall u, In u (payload_docs (json res)) ->
    exists v,
      In v db /\ u = with_password None v
      /\ (forall g, query req1 !! "gender" = Some g -> g <> "" -> gender v = g)
      /\ (forall s test,
            query req1 !! "religion" = Some s -> s <> "" ->
            RegExp_i s = Some test ->
            exists r, religion v = Some r /\ test r = true).
Proof.
  intros Hgate Hres u Hin.
  unfold search_route in Hres. rewrite Hgate in Hres. simpl in Hres.
  apply search_handler_results in Hres as (f & found & Hf & Hfind & ->).
  simpl in Hin. apply in_map_iff in Hin as (v & <- & Hv).
  destruct (find_page_In _ _ _ _ _ _ Hfind Hv) as [Hmatch Hdb].
  destruct (search_filter_of_fields _ _ Hf) as [Hg Hr].
  exists v. split; [done|]. split; [done|].
  unfold matches in Hmatch. rewrite !andb_true_iff in Hmatch.
  destruct Hmatch as [[[_ Hgender] Hreligion] _].
  split.
  - intros g Hq Hne. rewrite Hg, Hq in Hgender.
    destruct g; [done|]. simpl in Hgender. by apply String.eqb_eq.
  - intros s test Hq Hne Hre. rewrite Hq in Hr. unfold regex_param in Hr.
    destruct s; [done|]. rewrite Hre in Hr. injection Hr as Hr.
    rewrite <- Hr in Hreligion. simpl in Hreligion. destruct (religion v) as [r|]; [|done]. by exists r.
Qed.

Lemma search_results_meet_the_filter_witness :
  exists res,
    @search_route sample_runtime sample_users
      (with_query {[ "gender" := "Female"; "religion" := "hin" ]} alice_request)
    = Respond res
    /\ length (payload_docs (json res)) = 2%nat
    /\ forall u,
         In u (payload_docs (json res)) ->
         exists v,
           In v sample_users /\ u = with_password None v
           /\ (forall g,
                 query (set_user alice
                          (with_query {[ "gender" := "Female"; "religion" := "hin" ]}
                                      alice_request)) !! "gender" = Some g ->
                 g <> "" -> gender v = g)
           /\ (forall s test,
                 query (set_user alice
                          (with_query {[ "gender" := "Female"; "religion" := "hin" ]}
                                      alice_request)) !! "religion" = Some s ->
                 s <> "" -> @RegExp_i sample_runtime s = Some test ->
                 exists r, religion v = Some r /\ test r = true).
Proof.
  eexists. split; [reflexivity|]. split; [reflexivity|].
  apply (search_results_meet_the_filter sample_runtime sample_users
           (with_query {[ "gender" := "Female"; "religion" := "hin" ]} alice_request)
           (set_user alice
              (with_query {[ "gender" := "Female"; "religion" := "hin" ]} alice_request)));
    reflexivity.
Defined.

Lemma newest_first_length (l : list user_doc) :
  length (newest_first l) = length l.
Proof. apply Permutation_length, newest_first_perm. Qed.

Lemma page_window_size (p l : Z) (q : user_doc -> bool) (db : list user_doc) :
  1 <= p -> 1 <= l ->
  Z.of_nat (length (page_window p l q db))
  = Z.min l (Z.max 0 (countDocuments q db - (p - 1) * l)).
Proof.
  intros Hp Hl. unfold page_window, countDocuments.
  rewrite length_take, length_drop, newest_first_length. nia.
Qed.

(** X14. How full a page is: for [1 <= page] and [1 <= limit] the search
    answers with [min(limit, total - (page - 1) * limit)] documents, none
    when that is negative; so a page holds documents exactly when
    [page <= totalPages], and every page before the last is full. *)
Theorem search_page_sizes (rt : Runtime) (db : list user_doc)
    (req req1 : request) (results : list user_doc) (total p l t : Z) :
  authMiddleware req = Next req1 ->
  search_route db req
  = reply 200 (SearchResults results total (JInt p) (JInt l) (JInt t)) ->
  1 <= p -> 1 <= l ->
  Z.of_nat (length results) = Z.min l (Z.max 0 (total - (p - 1) * l))
  /\ (results <> [] <-> p <= t)
  /\ (p < t -> Z.of_nat (length results) = l).
Proof.
  intros Hgate Hres Hp Hl.
  unfold search_route in Hres. rewrite Hgate in Hres. simpl in Hres.
  apply search_handler_results in Hres as (f & found & Hf & Hfind & Heq).
  injection Heq as -> -> Hpage Hlimit Ht.
  rewrite <- Hpage, <- Hlimit in Hfind.
  rewrite find_page_window in Hfind by done. injection Hfind as <-.
  rewrite <- Hlimit in Ht.
  destruct (ceil_div_spec (countDocuments (matches f) db) l
              (countDocuments_nonneg _ _) Hl) as (t' & Ht' & Hbounds).
  rewrite Ht' in Ht. injection Ht as <-.
  pose proof (page_window_size p l (matches f) db Hp Hl) as Hsize.
  rewrite length_map.
  split; [exact Hsize|]. split.
  - split.
    + intros Hne.
      assert (0 < Z.of_nat (length (page_window p l (matches f) db))).
      { destruct (page_window p l (matches f) db); [done | simpl; lia]. }
      nia.
    + intros Hle Hnil. apply (f_equal (@length _)) in Hnil.
      rewrite length_map in Hnil. simpl in Hnil. nia.
  - intros Hlt. nia.
Qed.

Lemma search_page_sizes_witness :
  exists results,
    @search_route sample_runtime sample_users alice_page_2
    = reply 200 (SearchResults results 2 (JInt 2) (JInt 1) (JInt 2))
    /\ Z.of_nat (length results) = Z.min 1 (Z.max 0 (2 - (2 - 1) * 1))
    /\ (results <> [] <-> 2 <= 2)
    /\ (2 < 2 -> Z.of_nat (length results) = 1).
Proof.
  eexists. split; [reflexivity|].
  apply (search_page_sizes sample_runtime sample_users alice_page_2
           (set_user alice alice_page_2)); (reflexivity || lia).
Defined.

(** ** The admin listing *)

Lemma num_or_truthy (a : jsnum) (d : Z) :
  d <> 0 -> num_or a d <> JInt 0 /\ num_or a d <> JNaN.
Proof.
  intros Hd. destruct a as [[| |]| |]; simpl; split; congruence.
Qed.

Lemma parseInt_cases (s : string) (radix : option Z) :
  parseInt s radix = JNaN
  \/ (exists z, parseInt s radix = JInt z)
  \/ exists negative, parseInt s radix = JInf negative.
Proof.
  unfold parseInt.
  destruct (match trimStart s with
            | String "-" r => (-1, r)
            | String "+" r => (1, r)
            | _ => (1, trimStart s)
            end) as [sign t].
  destruct (match radix with
            | None | Some 16 =>
                match t with
                | String "0" (String "x" r) => (16, r)
                | String "0" (String "X" r) => (16, r)
                | _ => (default 10 radix, t)
                end
            | Some r => (r, t)
            end) as [r t'].
  destruct (read_digits r t' None) as [v|]; [|by left].
  destruct (nearest_double (sign * v)); eauto.
Qed.

(** X16. The date filters of the admin listing: with [filter=week] every
    listed user was created no more than seven days (604800000 ms) before
    the server's midnight, with [filter=month] not before the first of the
    month; any other value, or none, puts no bound on the date and the
    reported total is the size of the collection. *)
Theorem admin_listing_date_filters (cal : calendar) (db : list user_doc)
    (req : request) (found : list user_doc) (total : Z)
    (pages page limit : jsnum) (filterType : string) :
  admin_users_route cal db req
  = reply 200 (AdminUsers found total pages page limit filterType) ->
  filterType = or_else (query req !! "filter") "recent"
  /\ (filterType = "week" ->
      forall u, In u found -> today cal - 604800000 <= createdAt u)
  /\ (filterType = "month" ->
      forall u, In u found -> firstDayOfMonth cal <= createdAt u)
  /\ (filterType <> "week" -> filterType <> "month" ->
      total = Z.of_nat (length db)).
Proof.
  unfold admin_users_route, admin_router, staticAdminMiddleware, reply.
  destruct (negb _); simpl; [discriminate|].
  unfold admin_users_handler, reply.
  destruct (find_page _ _ _ db) as [err|docs] eqn:Hfind; [discriminate|].
  intros [= <- <- _ _ _ <-].
  split; [done|].
  set (ft := or_else (query req !! "filter") "recent") in *.
  assert (Hdocs : forall u, In u (map (select Unselected) docs) ->
                    admin_query cal ft u = true).
  { intros u (v & <- & Hv)%in_map_iff.
    by destruct (find_page_In _ _ _ _ _ _ Hfind Hv). }
  split; [|split].
  - intros Hft u Hu. specialize (Hdocs u Hu). unfold admin_query in Hdocs.
    rewrite Hft in Hdocs. simpl in Hdocs. lia.
  - intros Hft u Hu. specialize (Hdocs u Hu). unfold admin_query in Hdocs.
    rewrite Hft in Hdocs. simpl in Hdocs. lia.
  - intros Hw Hm. unfold countDocuments. do 2 f_equal.
    apply String.eqb_neq in Hw, Hm. clear Hfind Hdocs.
    induction db as [|v db IH]; [done|]. simpl.
    unfold admin_query at 1. rewrite Hw, Hm. by rewrite IH.
Qed.

Lemma admin_listing_date_filters_witness :
  (exists found,
     admin_users_route busy_calendar sample_users
       (with_query {[ "filter" := "week" ]} admin_request)
     = reply 200 (AdminUsers found 1 (JInt 1) (JInt 1) (JInt 9) "week")
     /\ map _id found = ["65f0000000000000000000b2"]
     /\ forall u, In u found -> today busy_calendar - 604800000 <= createdAt u)
  /\ (exists found,
        admin_users_route busy_calendar sample_users
          (with_query {[ "filter" := "month" ]} admin_request)
        = reply 200 (AdminUsers found 2 (JInt 1) (JInt 1) (JInt 9) "month")
        /\ map _id found = ["65f0000000000000000000b2"; "65f0000000000000000000b3"]
        /\ forall u, In u found -> firstDayOfMonth busy_calendar <= createdAt u)
  /\ (exists found total,
        admin_users_route busy_calendar sample_users
          (with_query {[ "filter" := "year" ]} admin_request)
        = reply 200 (AdminUsers found total (JInt 1) (JInt 1) (JInt 9) "year")
        /\ total = Z.of_nat (length sample_users)).
Proof.
  split; [|split].
  - eexists. split; [reflexivity|]. split; [reflexivity|].
    eapply (admin_listing_date_filters busy_calendar sample_users
             (with_query {[ "filter" := "week" ]} admin_request)
             _ 1 (JInt 1) (JInt 1) (JInt 9) "week"); reflexivity.
  - eexists. split; [reflexivity|]. split; [reflexivity|].
    eapply (admin_listing_date_filters busy_calendar sample_users
             (with_query {[ "filter" := "month" ]} admin_request)
             _ 2 (JInt 1) (JInt 1) (JInt 9) "month"); reflexivity.
  - do 2 eexists. split; [reflexivity|].
    eapply (admin_listing_date_filters busy_calendar sample_users
             (with_query {[ "filter" := "year" ]} admin_request)
             _ 3 (JInt 1) (JInt 1) (JInt 9) "year");
      [reflexivity | discriminate | discriminate].
Defined.

(** X17. The admin listing never runs with a page or a limit of zero or
    [NaN]: [parseInt(...) || d] falls back to the default, so each is a
    non-zero integer or, for digits beyond the largest number, an infinity;
    hence the [totalPages] it reports is always an integer, unlike the
    search, where [limit=0] gives an infinite page count. *)
Theorem admin_listing_parameters (cal : calendar) (db : list user_doc)
    (req : request) :
  (forall name d, d <> 0 ->
     int_param_or req name d <> JInt 0 /\ int_param_or req name d <> JNaN)
  /\ (query req !! "limit" = Some "0" -> int_param_or req "limit" 9 = JInt 9)
  /\ forall res, admin_users_route cal db req = Respond res ->
       match json res with
       | AdminUsers _ _ totalPages page limit _ =>
           (exists t, totalPages = JInt t)
           /\ page <> JInt 0 /\ page <> JNaN /\ limit <> JInt 0 /\ limit <> JNaN
       | _ => status res = 403
       end.
Proof.
  assert (Hparam : forall name d, d <> 0 ->
            int_param_or req name d <> JInt 0 /\ int_param_or req name d <> JNaN).
  { intros name d Hd. unfold int_param_or. by apply num_or_truthy. }
  split; [exact Hparam|]. split.
  - unfold int_param_or. by intros ->.
  - intros res. unfold admin_users_route, admin_router, staticAdminMiddleware, reply.
    destruct (negb _); simpl; [by intros [= <-]|].
    unfold admin_users_handler, reply.
    destruct (Hparam "page" 1 ltac:(lia)) as [Hp0 Hpn].
    destruct (Hparam "limit" 9 ltac:(lia)) as [Hl0 Hln].
    destruct (find_page _ _ _ db); [discriminate|].
    intros [= <-]. simpl. split; [|done].
    destruct (int_param_or req "limit" 9) as [[| |]| |]; simpl; eauto; done.
Qed.

Example admin_listing_limit_zero :
  exists found total pages,
    admin_users_route sample_calendar sample_users
      (with_query {[ "limit" := "0"; "page" := "abc" ]} admin_request)
    = reply 200 (AdminUsers found total (JInt pages) (JInt 1) (JInt 9) "recent").
Proof. do 3 eexists. reflexivity. Qed.

(** A limit of 400 digits is an infinity, which is not falsy. *)
Example admin_listing_huge_limit :
  int_param_or
    (with_query {[ "limit" := String.concat "" (repeat "9999999999" 40) ]}
                admin_request) "limit" 9
  = JInf false.
Proof. vm_compute. reflexivity. Qed.

Lemma admin_listing_parameters_witness :
  int_param_or (with_query {[ "limit" := "0" ]} admin_request) "limit" 9 = JInt 9.
Proof.
  destruct (admin_listing_parameters sample_calendar sample_users
              (with_query {[ "limit" := "0" ]} admin_request)) as (_ & Hzero & _).
  apply Hzero. reflexivity.
Defined.

(** ** Login *)

(** X18. A login with an address nobody registered and a login with a
    registered address but a password [bcrypt.compare] refuses get the same
    answer, 401 with "Invalid email or password.", so the answer does not
    tell whether the address exists. *)
Theorem login_failures_are_indistinguishable (rt : Runtime) (lg : Login)
    (db : list user_doc) (req1 req2 : request) (found : user_doc) :
  login_errors req1 = [] -> login_errors req2 = [] ->
  findOne_email (toLowerCase (normalizeEmail (default "" (body req1 !! "email")))) db
  = None ->
  findOne_email (toLowerCase (normalizeEmail (default "" (body req2 !! "email")))) db
  = Some found ->
  comparePassword found (default "" (body req2 !! "password")) db = inr false ->
  login_route db req1 = reply 401 (Failure "Invalid email or password.")
  /\ login_route db req2 = login_route db req1.
Proof.
  intros He1 He2 Hnone Hsome Hcmp. unfold login_route.
  by rewrite He1, He2, Hnone, Hsome, Hcmp.
Qed.

Lemma login_failures_are_indistinguishable_witness :
  @login_route sample_runtime sample_login sample_users
    (login_request "nobody@x.com" "stored-hash")
  = reply 401 (Failure "Invalid email or password.")
  /\ @login_route sample_runtime sample_login sample_users
       (login_request "alice@x.com" "wrong-password")
     = @login_route sample_runtime sample_login sample_users
         (login_request "nobody@x.com" "stored-hash").
Proof.
  apply (login_failures_are_indistinguishable sample_runtime sample_login
           sample_users (login_request "nobody@x.com" "stored-hash")
           (login_request "alice@x.com" "wrong-password")
           (sample_doc "65f0000000000000000000a1" "alice@x.com" "9000000001" 100));
    reflexivity.
Defined.

(** X19. [POST /login] answers 200 only for a stored user whose address
    matches the submitted one and for a password that [bcrypt.compare]
    accepted against the hash stored under that user's id; the token is
    signed for that user's id and role, and the document in the answer is
    the stored one without its password. *)
Theorem login_success_is_earned (rt : Runtime) (lg : Login)
    (db : list user_doc) (req : request) (token : string) (u : user_doc) :
  login_route db req = reply 200 (Registered token u) ->
  exists found stored hash,
    In found db
    /\ email found
       = trim (toLowerCase (toLowerCase
                 (normalizeEmail (default "" (body req !! "email")))))
    /\ In stored db /\ _id stored = _id found
    /\ password stored = Some hash
    /\ bcrypt_compare (default "" (body req !! "password")) hash = true
    /\ token = jwt_sign (_id found) (doc_role found)
    /\ u = with_password None found /\ password u = None.
Proof.
  unfold login_route, reply.
  destruct (login_errors req); [|discriminate].
  destruct (findOne_email _ db) as [found|] eqn:Hfind; [|discriminate].
  destruct (comparePassword found _ db) as [err|[|]] eqn:Hcmp; try discriminate.
  intros [= <- <-].
  apply find_some in Hfind as [Hin Hmail]. apply String.eqb_eq in Hmail.
  unfold comparePassword in Hcmp.
  destruct (List.find _ db) as [stored|] eqn:Hstored; [|discriminate].
  apply find_some in Hstored as [Hin' Hid]. apply String.eqb_eq in Hid.
  simpl in Hcmp. destruct (password stored) as [hash|] eqn:Hpw; [|discriminate].
  injection Hcmp as Hcmp.
  exists found, stored, hash. done.
Qed.

Lemma login_success_is_earned_witness :
  exists found stored hash,
    In found sample_users
    /\ email found
       = trim (toLowerCase (toLowerCase
                 (@normalizeEmail sample_login
                    (default "" (body (login_request "Alice@X.com" "stored-hash")
                                   !! "email")))))
    /\ In stored sample_users /\ _id stored = _id found
    /\ password stored = Some hash
    /\ @bcrypt_compare sample_login
         (default "" (body (login_request "Alice@X.com" "stored-hash") !! "password"))
         hash = true
    /\ "65f0000000000000000000a1.user.jwt"
       = @jwt_sign sample_runtime (_id found) (doc_role found)
    /\ with_password None
         (sample_doc "65f0000000000000000000a1" "alice@x.com" "9000000001" 100)
       = with_password None found
    /\ password (with_password None
                   (sample_doc "65f0000000000000000000a1" "alice@x.com"
                               "9000000001" 100)) = None.
Proof.
  apply (login_success_is_earned sample_runtime sample_login sample_users
           (login_request "Alice@X.com" "stored-hash")).
  reflexivity.
Defined.

(** A login without a password, or with something that is no address, is
    answered 400 before the collection is read. *)
Example login_validation :
  @login_route sample_runtime sample_login sample_users
    (login_request "not-an-address" "")
  = reply 400 (FieldErrors "Validation failed"
                 [("email", "Enter a valid email");
                  ("password", "Password is required")]).
Proof. reflexivity. Qed.

(** A registration the schema refuses: every failing path is reported and
    the uploaded file is unlinked. *)
Example register_validation_failure :
  @register_route sample_runtime sample_platform sample_env
    (with_body {[ "email" := "dina-at-x.com"; "password" := "secret1";
                  "mobileNumber" := "9000000009"; "name" := "Dina";
                  "gender" := "Female"; "dateOfBirth" := "1995-01-01";
                  "city" := "Pune"; "state" := "MH"; "country" := "India" ]}
               alice_upload)
    sample_world
  = {| out := reply 400 (FieldErrors "Validation failed. Please check your input."
                           [("email", "Please use a valid email address.")]);
       store := unlink "uploads/profile-pictures/profileImage-1700000000000-123456789.png"
                  (write_file
                     "uploads/profile-pictures/profileImage-1700000000000-123456789.png"
                     sample_world);
       calls := [Write "uploads/profile-pictures/profileImage-1700000000000-123456789.png";
                 Unlink "uploads/profile-pictures/profileImage-1700000000000-123456789.png"] |}.
Proof. reflexivity. Qed.

(** ** The admin's write routes *)

Lemma remove_first_spec (id : string) (db db' : list user_doc) (u : user_doc) :
  remove_first id db = Some (u, db') ->
  _id u = id /\ Permutation db (u :: db')
  /\ forall v, In v db' -> In v db.
Proof.
  revert db' u. induction db as [|x rest IH]; simpl; [done|].
  intros db' u. destruct (String.eqb (_id x) id) eqn:Hx.
  - intros [= <- <-]. apply String.eqb_eq in Hx. split; [done|].
    split; [done|]. intros v Hv. by right.
  - destruct (remove_first id rest) as [[w rest']|]; [|done].
    intros [= <- <-]. destruct (IH _ _ eq_refl) as (Hid & Hperm & Hsub).
    split; [done|]. split.
    + rewrite Hperm. apply perm_swap.
    + intros v [<-|Hv]; [by left | right; by apply Hsub].
Qed.

Lemma remove_first_none (id : string) (db : list user_doc) :
  remove_first id db = None ->
  List.find (fun v => String.eqb (_id v) id) db = None.
Proof.
  induction db as [|x rest IH]; simpl; [done|].
  destruct (String.eqb (_id x) id); [done|].
  destruct (remove_first id rest) as [[w rest']|]; [done|]. auto.
Qed.

(** X20. [POST /users] of the admin router hashes the password itself and
    then saves through the schema, whose pre-save hook hashes the modified
    password again: a 201 means the new last document of the collection
    holds the hash of the hash of the submitted password, and the answer
    carries that document with its [password] field. *)
Theorem admin_create_hashes_twice (rt : Runtime) (e : env) (req : request)
    (db : list user_doc) (message : string) (u : user_doc) :
  w_out (admin_create_route e req db) = Sent 201 (WCreated message u) ->
  exists pw,
    body req !! "password" = Some pw /\ pw <> ""
    /\ password u = Some (bcrypt_hash (bcrypt_hash pw))
    /\ w_users (admin_create_route e req db) = (db ++ [u])%list
    /\ email u = trim (toLowerCase (default "" (body req !! "email")))
    /\ doc_role u = "user" /\ profile u !! "isVerified" = Some "true".
Proof.
  unfold admin_create_route, admin_write_router, staticAdminMiddleware.
  destruct (negb _); simpl; [discriminate|].
  unfold admin_create_handler.
  destruct (forallb _ admin_required) eqn:Hreq; simpl; [|discriminate].
  destruct (findOne_email _ db); [discriminate|].
  destruct (findOne_mobile _ db); [discriminate|].
  destruct (save e (admin_newUser e req) db) as [err|[saved db']] eqn:Hsave.
  { destruct (String.eqb _ _); discriminate. }
  simpl. intros [= _ <-].
  destruct (save_spec _ _ _ _ _ Hsave) as (Hsaved & -> & _).
  assert (Hpw : exists pw, body req !! "password" = Some pw /\ pw <> "").
  { unfold admin_required in Hreq. simpl in Hreq.
    rewrite !andb_true_iff in Hreq. destruct Hreq as (_ & _ & Hpw & _).
    destruct (body req !! "password") as [[|c r]|]; try discriminate.
    by exists (String c r). }
  destruct Hpw as (pw & Hpw & Hne). exists pw.
  split; [done|]. split; [done|].
  split; [rewrite Hsaved; cbn [password with_password admin_newUser];
          by rewrite Hpw|].
  split; [done|].
  split; [by rewrite Hsaved|]. split; [by rewrite Hsaved|].
  rewrite Hsaved. cbn [profile with_password admin_newUser].
  rewrite lookup_insert_ne by done. by rewrite lookup_insert_eq.
Qed.

Lemma admin_create_hashes_twice_witness :
  exists u pw,
    w_out (@admin_create_route sample_runtime sample_env admin_creation sample_users)
    = Sent 201 (WCreated "User created successfully" u)
    /\ body admin_creation !! "password" = Some pw /\ pw <> ""
    /\ password u = Some (@bcrypt_hash sample_runtime (@bcrypt_hash sample_runtime pw))
    /\ password u = Some "$2a$10$$2a$10$secret1".
Proof.
  eexists. 
  destruct (admin_create_hashes_twice sample_runtime sample_env admin_creation
              sample_users "User created successfully" _ eq_refl)
    as (pw & Hpw & Hne & Hhash & _).
  exists pw. split; [reflexivity|]. split; [exact Hpw|]. split; [exact Hne|].
  split; [exact Hhash | reflexivity].
Defined.

Section AdminCreate.
Context `{rt : Runtime}.

Lemma admin_create_201 e req db message u :
  w_out (admin_create_route e req db) = Sent 201 (WCreated message u) ->
  save e (admin_newUser e req) db = inr (u, w_users (admin_create_route e req db))
  /\ truthy (body req !! "password") = true.
Proof.
  unfold admin_create_route, admin_write_router, staticAdminMiddleware.
  destruct (negb _); simpl; [discriminate|].
  unfold admin_create_handler.
  destruct (forallb _ admin_required) eqn:Hreq; simpl; [|discriminate].
  destruct (findOne_email _ db); [discriminate|].
  destruct (findOne_mobile _ db); [discriminate|].
  destruct (save e (admin_newUser e req) db) as [err|[saved db']] eqn:Hsave.
  { destruct (String.eqb _ _); discriminate. }
  simpl. intros [= _ <-]. split; [done|].
  unfold admin_required in Hreq. simpl in Hreq.
  rewrite !andb_true_iff in Hreq. tauto.
Qed.

End AdminCreate.

(** X21. Because of the double hash, a user the admin created with a new
    id, at an address that [normalizeEmail] leaves as it is once lower-cased,
    who logs in with the password the admin chose, is answered 400
    "Validation failed" when the login's [isEmail] refuses the address;
    otherwise 200 exactly when [bcrypt.compare] accepts that password
    against the hash of its hash, and 401 like any wrong password when it
    does not. *)
Theorem admin_created_user_login (rt : Runtime) (lg : Login) (e : env)
    (req req' : request) (db : list user_doc) (message : string) (u : user_doc)
    (em pw : string) :
  w_out (admin_create_route e req db) = Sent 201 (WCreated message u) ->
  (forall v, In v db -> _id v <> new_id e) ->
  body req !! "email" = Some em -> body req !! "password" = Some pw ->
  trim (toLowerCase (toLowerCase (normalizeEmail em))) = trim (toLowerCase em) ->
  body req' !! "email" = Some em -> body req' !! "password" = Some pw ->
  login_route (w_users (admin_create_route e req db)) req'
  = if isEmail em
    then if bcrypt_compare pw (bcrypt_hash (bcrypt_hash pw))
         then reply 200 (Registered (jwt_sign (new_id e) "user") (with_password None u))
         else reply 401 (Failure "Invalid email or password.")
    else reply 400 (FieldErrors "Validation failed"
                      [("email", "Enter a valid email")]).
Proof.
  intros [Hsave Htruthy]%admin_create_201 Hfresh Hem Hpw Hnorm Hem' Hpw'.
  destruct (save_spec _ _ _ _ _ Hsave) as (Hsaved & -> & _ & _ & Huniq).
  assert (Hu_mail : email u = trim (toLowerCase em)).
  { rewrite Hsaved. cbn [email with_password admin_newUser]. by rewrite Hem. }
  assert (Hu_pw : password u = Some (bcrypt_hash (bcrypt_hash pw))).
  { rewrite Hsaved. cbn [password with_password admin_newUser]. by rewrite Hpw. }
  assert (Hu_id : _id u = new_id e) by (by rewrite Hsaved).
  assert (Hu_role : doc_role u = "user") by (by rewrite Hsaved).
  assert (Hnew_mail : email (admin_newUser e req) = trim (toLowerCase em)).
  { cbn [email admin_newUser]. by rewrite Hem. }
  rewrite Hpw in Htruthy.
  unfold login_route, login_errors. rewrite Hem', Hpw'.
  cbn [from_option]. unfold id. rewrite Htruthy.
  destruct (isEmail em); [|reflexivity]. cbn [app].
  unfold findOne_email.
  rewrite (find_app_last _ db u).
  - unfold comparePassword.
    rewrite (find_app_last _ db u).
    + cbn [select]. rewrite Hu_pw, Hu_id, Hu_role.
      by destruct (bcrypt_compare _ _).
    + intros v Hv. apply String.eqb_neq. rewrite Hu_id. by apply Hfresh.
    + apply String.eqb_refl.
  - intros v Hv. apply String.eqb_neq. rewrite Hnorm, <- Hnew_mail.
    by destruct (Huniq v Hv).
  - apply String.eqb_eq. by rewrite Hnorm.
Qed.

Lemma admin_created_user_login_witness :
  exists u,
    w_out (@admin_create_route sample_runtime sample_env admin_creation sample_users)
    = Sent 201 (WCreated "User created successfully" u)
    /\ @login_route sample_runtime sample_login
         (w_users (@admin_create_route sample_runtime sample_env admin_creation
                     sample_users))
         (login_request "Dina@X.com" "secret1")
       = if @isEmail sample_login "Dina@X.com"
         then if @bcrypt_compare sample_login "secret1"
                   (@bcrypt_hash sample_runtime (@bcrypt_hash sample_runtime "secret1"))
              then reply 200 (Registered (@jwt_sign sample_runtime (new_id sample_env) "user")
                                         (with_password None u))
              else reply 401 (Failure "Invalid email or password.")
         else reply 400 (FieldErrors "Validation failed"
                           [("email", "Enter a valid email")]).
Proof.
  eexists. split; [reflexivity|].
  apply (admin_created_user_login sample_runtime sample_login sample_env
           admin_creation (login_request "Dina@X.com" "secret1") sample_users
           "User created successfully" _ "Dina@X.com" "secret1").
  - reflexivity.
  - intros v Hv. vm_compute in Hv.
    repeat (destruct Hv as [<-|Hv]; [discriminate|]). destruct Hv.
  - reflexivity.
  - reflexivity.
  - reflexivity.
  - reflexivity.
  - reflexivity.
Defined.

(** With a [bcrypt.compare] that accepts a password only against its own
    hash, the user the admin created is locked out. *)
Example admin_created_user_is_locked_out :
  @login_route sample_runtime sample_login
    (w_users (@admin_create_route sample_runtime sample_env admin_creation
                sample_users))
    (login_request "Dina@X.com" "secret1")
  = reply 401 (Failure "Invalid email or password.").
Proof. reflexivity. Qed.

(** X22. [DELETE /users/:id] followed by [GET /users/:id], for an id
    written as ids are stored (24 hex digits in lower case): after a 200
    the collection is the old one without the deleted document, which had
    the requested id, and, ids being unique, the admin look-up of that id
    answers 404. *)
Theorem admin_delete_then_read (rt : Runtime) (up : Update) (e : env)
    (req : request) (db : list user_doc) (message : string) (deleted : user_doc) :
  canonical_id (default "" (params_id req)) = true ->
  NoDup (map _id db) ->
  w_out (admin_delete_route e req db) = Sent 200 (WDeleted message deleted) ->
  exists u,
    deleted = select delete_selection u
    /\ _id u = default "" (params_id req)
    /\ Permutation db (u :: w_users (admin_delete_route e req db))
    /\ admin_user_route (w_users (admin_delete_route e req db)) req
       = reply 404 (Message "User not found").
Proof.
  intros _ Hnodup.
  unfold admin_delete_route, admin_user_route, admin_write_router, admin_router.
  destruct (staticAdminMiddleware req) as [req'| |] eqn:Hgate;
    simpl; try discriminate.
  assert (req' = req) as ->.
  { unfold staticAdminMiddleware in Hgate.
    destruct (negb _); [discriminate | by injection Hgate]. }
  unfold admin_delete_handler, findById.
  destruct (isObjectId _) eqn:Hcast; [|discriminate].
  destruct (store_fault e); [discriminate|].
  destruct (remove_first _ db) as [[u db']|] eqn:Hrm; [|discriminate].
  simpl. intros [= _ <-].
  destruct (remove_first_spec _ _ _ _ Hrm) as (Hid & Hperm & Hsub).
  exists u. split; [done|]. split; [done|]. split; [done|].
  assert (Hgone : List.find
                    (fun v => String.eqb (_id v) (default "" (params_id req))) db'
                  = None).
  { destruct (List.find _ db') as [v|] eqn:Hfind; [|done].
    apply find_some in Hfind as [Hv Heq]. apply String.eqb_eq in Heq.
    apply (Permutation_map _id) in Hperm.
    rewrite Hperm in Hnodup. simpl in Hnodup.
    apply NoDup_cons in Hnodup as [Hnot _]. exfalso. apply Hnot.
    rewrite Hid, <- Heq. apply list_elem_of_In, in_map, Hv. }
  by rewrite Hgone.
Qed.

Lemma admin_delete_then_read_witness :
  exists u,
    with_password None
      (sample_doc "65f0000000000000000000b2" "bina@x.com" "9000000002" 300)
    = select (@delete_selection sample_update) u
    /\ _id u
       = default "" (params_id (with_params_id "65f0000000000000000000b2" admin_request))
    /\ Permutation sample_users
         (u :: w_users (@admin_delete_route sample_runtime sample_update sample_env
                          (with_params_id "65f0000000000000000000b2" admin_request)
                          sample_users))
    /\ @admin_user_route sample_runtime
         (w_users (@admin_delete_route sample_runtime sample_update sample_env
                     (with_params_id "65f0000000000000000000b2" admin_request)
                     sample_users))
         (with_params_id "65f0000000000000000000b2" admin_request)
       = reply 404 (Message "User not found").
Proof.
  apply (admin_delete_then_read sample_runtime sample_update sample_env
           (with_params_id "65f0000000000000000000b2" admin_request) sample_users
           "User deleted successfully").
  - reflexivity.
  - apply (bool_decide_unpack _). vm_compute. exact I.
  - reflexivity.
Defined.

(** X23. The admin's write routes: without the header nothing is created or
    deleted and the answer is 403; with it, an id that cannot be cast makes
    [DELETE /users/:id] pass a CastError to the error handler (500) where
    [GET /users/:id] answers 400, and an id written as ids are stored (24
    hex digits in lower case) that no document has is answered 404; in both
    cases the collection is left as it was. *)
Theorem admin_writes_and_their_refusals (rt : Runtime) (up : Update) (e : env)
    (req : request) (db : list user_doc) :
  (headers req !! "x-admin-request" <> Some TRUE ->
   admin_create_route e req db
   = written (Refused {| status := 403; json := Message "Admin privileges required" |}) db
   /\ admin_delete_route e req db
      = written (Refused {| status := 403; json := Message "Admin privileges required" |})
                db)
  /\ (headers req !! "x-admin-request" = Some TRUE ->
      isObjectId (default "" (params_id req)) = false ->
      admin_delete_route e req db
      = written (Thrown (CastError (default "" (params_id req)))) db
      /\ admin_user_route db req = reply 400 (Message "Invalid user ID format"))
  /\ (headers req !! "x-admin-request" = Some TRUE ->
      canonical_id (default "" (params_id req)) = true ->
      isObjectId (default "" (params_id req)) = true -> store_fault e = None ->
      (forall v, In v db -> _id v <> default "" (params_id req)) ->
      admin_delete_route e req db = written (Sent 404 (WMessage "User not found")) db).
Proof.
  unfold admin_create_route, admin_delete_route, admin_user_route,
    admin_write_router, admin_router, staticAdminMiddleware.
  split; [|split].
  - intros Hadm. by rewrite bool_decide_eq_false_2.
  - intros Hadm Hcast. rewrite bool_decide_eq_true_2 by done. simpl.
    unfold admin_delete_handler, findById. by rewrite Hcast.
  - intros Hadm _ Hcast Hfault Habsent. rewrite bool_decide_eq_true_2 by done.
    simpl. unfold admin_delete_handler. rewrite Hcast, Hfault.
    destruct (remove_first _ db) as [[u db']|] eqn:Hrm; [|done].
    destruct (remove_first_spec _ _ _ _ Hrm) as (Hid & Hperm & _).
    exfalso. apply (Habsent u); [|done].
    apply (Permutation_in _ (Permutation_sym Hperm)). by left.
Qed.

Lemma admin_writes_and_their_refusals_witness :
  (@admin_create_route sample_runtime sample_env
     (with_body (body admin_creation) alice_request) sample_users
   = written (Refused {| status := 403; json := Message "Admin privileges required" |})
             sample_users
   /\ @admin_delete_route sample_runtime sample_update sample_env
        (with_body (body admin_creation) alice_request) sample_users
      = written (Refused {| status := 403; json := Message "Admin privileges required" |})
                sample_users)
  /\ (@admin_delete_route sample_runtime sample_update sample_env
        (with_params_id "not-an-id" admin_request) sample_users
      = written (Thrown (CastError "not-an-id")) sample_users
      /\ @admin_user_route sample_runtime sample_users
           (with_params_id "not-an-id" admin_request)
         = reply 400 (Message "Invalid user ID format"))
  /\ @admin_delete_route sample_runtime sample_update sample_env
       (with_params_id "65f0000000000000000000ff" admin_request) sample_users
     = written (Sent 404 (WMessage "User not found")) sample_users.
Proof.
  destruct (admin_writes_and_their_refusals sample_runtime sample_update sample_env
              (with_body (body admin_creation) alice_request) sample_users)
    as (Hrefused & _).
  destruct (admin_writes_and_their_refusals sample_runtime sample_update sample_env
              (with_params_id "not-an-id" admin_request) sample_users)
    as (_ & Hcast & _).
  destruct (admin_writes_and_their_refusals sample_runtime sample_update sample_env
              (with_params_id "65f0000000000000000000ff" admin_request) sample_users)
    as (_ & _ & Habsent).
  split; [|split].
  - apply Hrefused. vm_compute. discriminate.
  - apply Hcast; reflexivity.
  - apply Habsent; try reflexivity.
    intros v Hv. vm_compute in Hv.
    repeat (destruct Hv as [<-|Hv]; [discriminate|]). destruct Hv.
Defined.

(** ** Updating a profile by id *)

(** X24. [PUT /:id] is for the owner only: a caller whose token carries
    another id than the path is answered 403 and nothing changes; whatever
    the route answers, every document of another user stays where it was;
    and the document it answers with carries no password. *)
Theorem update_by_id_is_owner_only (rt : Runtime) (up : Update) (e : env)
    (req req1 : request) (db : list user_doc) (caller : token_payload) :
  authMiddleware req = Next req1 -> user req1 = Some caller ->
  (default "" (params_id req1) <> userId caller ->
   update_profile_route e req db
   = written (Sent 403 (WMessage "Unauthorized action")) db)
  /\ (forall (i : nat) (v : user_doc),
        db !! i = Some v -> _id v <> userId caller ->
        w_users (update_profile_route e req db) !! i = Some v)
  /\ (forall u, In u (write_docs (w_out (update_profile_route e req db))) ->
        password u = None).
Proof.
  intros Hgate Hcaller. unfold update_profile_route. rewrite Hgate, Hcaller.
  destruct (String.eqb (userId caller) (default "" (params_id req1))) eqn:Hown.
  - apply String.eqb_eq in Hown. simpl negb. cbv iota.
    split; [intros Hne; by rewrite Hown in Hne|].
    destruct (negb (isObjectId _)); [by split|].
    destruct (store_fault e) as [err|].
    { destruct (String.eqb _ _); by split. }
    destruct (update_first _ _ db) as [[u db']|] eqn:Hupd; [|by split].
    destruct (update_first_spec _ _ _ _ _ Hupd) as (_ & _ & _ & Hother).
    split.
    + intros i v Hi Hv. apply Hother; [done|]. by rewrite <- Hown.
    + simpl. by intros u0 [<-|[]].
  - simpl. by repeat split.
Qed.

Lemma update_by_id_is_owner_only_witness :
  @update_profile_route sample_runtime sample_update sample_env
    (with_body {[ "role" := "admin" ]}
       (with_params_id "65f0000000000000000000b2" alice_request)) sample_users
  = written (Sent 403 (WMessage "Unauthorized action")) sample_users.
Proof.
  destruct (update_by_id_is_owner_only sample_runtime sample_update sample_env
              (with_body {[ "role" := "admin" ]}
                 (with_params_id "65f0000000000000000000b2" alice_request))
              (set_user alice
                 (with_body {[ "role" := "admin" ]}
                    (with_params_id "65f0000000000000000000b2" alice_request)))
              sample_users alice eq_refl eq_refl) as (Hforbidden & _).
  apply Hforbidden. vm_compute. discriminate.
Defined.

(** On her own id the owner's body goes to the store as it is: with an
    update that sets what the body names, alice makes herself an admin. *)
Example owner_can_set_her_role :
  exists u db',
    @update_profile_route sample_runtime sample_update sample_env
      (with_body {[ "role" := "admin" ]}
         (with_params_id "65f0000000000000000000a1" alice_request)) sample_users
    = written (Sent 200 (WDocument u)) db'
    /\ doc_role u = "admin".
Proof. do 2 eexists. split; reflexivity. Qed.
